(** * Kolibri task API: the job summary, the task endpoints and the job queue

    A shallow embedding of [kolibri/core/tasks/api.py]: the observer-facing
    job summary [_job_to_response], the task endpoints [retrieve],
    [canceltask] and [cleartask] of [TasksViewSet], and the job body
    [_localexport].  The queue object the endpoints talk to
    ([kolibri.core.tasks.main.queue]) is described by the design document
    only; its model lives in [Module Queue]. *)

From Stdlib Require Import QArith.
From stdpp Require Import gmap strings list fin_maps.

Open Scope string_scope.

(** ** Python values *)

(** Modelled from the spec: [kolibri.core.tasks.job.State] is not part of
    the sources at hand; section 3 lists its seven life-cycle states. *)
Inductive State : Type :=
  | SCHEDULED | QUEUED | RUNNING | CANCELING | CANCELED | COMPLETED | FAILED.

#[global] Instance State_eq_dec : EqDecision State.
Proof. solve_decision. Defined.

(** The values that travel through request bodies, job metadata and
    responses. *)
#[warnings="-register-all"]
Inductive pyval : Type :=
  | VNone
  | VBool (b : bool)
  | VInt (n : Z)
  | VFloat (q : Q)
  | VStr (s : string)
  | VList (l : list pyval)
  | VState (s : State).

(** Python truthiness, as used by [if task_id:] and [if not job:]. *)
Definition truthy (v : pyval) : bool :=
  match v with
  | VNone => false
  | VBool b => b
  | VInt n => negb (n =? 0)%Z
  | VFloat q => negb (Qeq_bool q 0)
  | VStr s => negb (String.eqb s "")
  | VList l => match l with [] => false | _ => true end
  | VState _ => true
  end.

(** [isinstance(v, string_types)] *)
Definition is_string (v : pyval) : bool :=
  match v with VStr _ => true | _ => false end.

(** A Python [dict] with string keys. *)
Abbreviation pydict := (gmap string pyval).

(** [d.update(other)]: every key of [other] is written into [d]. *)
Definition dict_update (d other : pydict) : pydict := other ∪ d.

(** ** Job records *)

(** Modelled from the spec: the job class is not part of the sources at
    hand.  The fields are those of section 3, under the attribute names
    [_job_to_response] reads ([job_id], [state], [percentage_progress],
    [cancellable], [exception], [traceback], [extra_metadata]). *)
Record Job : Type := mkJob {
  job_id : string;
  func : string;
  args : list pyval;
  kwargs : pydict;
  state : State;
  percentage_progress : Q;
  cancellable : bool;
  track_progress : bool;
  exception : option string;
  traceback : option string;
  extra_metadata : pydict;
}.

(** [str(x)] for a field that holds [None] or a string. *)
Definition py_str (x : option string) : string :=
  match x with
  | None => "None"
  | Some s => s
  end.

(** The six entries [_job_to_response] writes before merging the metadata. *)
Definition job_output (job : Job) : pydict :=
  <["status" := VState (state job)]>
  (<["exception" := VStr (py_str (exception job))]>
  (<["traceback" := VStr (py_str (traceback job))]>
  (<["percentage" := VFloat (percentage_progress job)]>
  (<["id" := VStr (job_id job)]>
  (<["cancellable" := VBool (cancellable job)]> ∅))))).

(** The summary returned for [None]. *)
Definition placeholder_response : pydict :=
  <["type" := VNone]>
  (<["started_by" := VNone]>
  (<["status" := VState SCHEDULED]>
  (<["percentage" := VInt 0]>
  (<["progress" := VList []]>
  (<["id" := VNone]>
  (<["cancellable" := VBool false]> ∅)))))).

(** [_job_to_response(job)]; the argument is [None] or a job object, and a
    job object is truthy. *)
Definition _job_to_response (job : option Job) : pydict :=
  match job with
  | None => placeholder_response
  | Some j => dict_update (job_output j) (extra_metadata j)
  end.

(** ** Exceptions and the state-and-exception monad *)

Inductive exn : Type :=
  | JobNotFound
  | InvalidFunctionError
  | UserCancelledError
  | OSError
  | KeyError
  | Http404 (msg : string)
  | ValidationError (msg : string).

#[global] Instance exn_eq_dec : EqDecision exn.
Proof. solve_decision. Defined.

Inductive result (A : Type) : Type :=
  | Ok (a : A)
  | Raise (e : exn).
Arguments Ok {A} a.
Arguments Raise {A} e.

(** A computation over a mutable world [S] that returns or raises; the
    world keeps the writes made before an exception. *)
Definition M (S A : Type) : Type := S -> result A * S.

Definition ret {S A} (a : A) : M S A := fun s => (Ok a, s).

Definition bind {S A B} (m : M S A) (k : A -> M S B) : M S B :=
  fun s =>
    match m s with
    | (Ok a, s') => k a s'
    | (Raise e, s') => (Raise e, s')
    end.

Definition raise {S A} (e : exn) : M S A := fun s => (Raise e, s).

(** [try: body except <catches>: handler] *)
Definition try_except {S A} (body : M S A) (catches : exn -> bool)
    (handler : exn -> M S A) : M S A :=
  fun s =>
    match body s with
    | (Ok a, s') => (Ok a, s')
    | (Raise e, s') => if catches e then handler e s' else (Raise e, s')
    end.

Definition get {S} : M S S := fun s => (Ok s, s).
Definition modify {S} (f : S -> S) : M S unit := fun s => (Ok tt, f s).

Notation "x <- m ;; k" := (bind m (fun x => k))
  (at level 20, m at level 99, k at level 200, only parsing).
Notation "m ;; k" := (bind m (fun _ => k))
  (at level 100, k at level 200, only parsing, right associativity).

(** ** The job queue *)

Module Queue.

(** Modelled from the spec: the queue object [kolibri.core.tasks.main.queue]
    (scheduler facade, storage backend and worker pool) is not part of the
    sources at hand.  The record and the operations below follow sections 3
    and 4 of the design document. *)
Record queue : Type := mkQueue {
  q_jobs : gmap string Job;
  q_issued : gset string;
  q_registry : gset string;
}.

(** Modelled from the spec: [COMPLETED], [FAILED] and [CANCELED] are the
    terminal states, the other four are transient. *)
Definition terminal (s : State) : bool :=
  match s with
  | COMPLETED | FAILED | CANCELED => true
  | SCHEDULED | QUEUED | RUNNING | CANCELING => false
  end.

(** Modelled from the spec: a storage update, which replaces the table of
    records and keeps the rest of the queue. *)
Definition set_jobs (f : gmap string Job -> gmap string Job) (q : queue) : queue :=
  {| q_jobs := f (q_jobs q); q_issued := q_issued q; q_registry := q_registry q |}.

(** Modelled from the spec: the storage update of [state]
    ([update(id, partial_fields)] of section 4.2). *)
Definition set_state (s : State) (j : Job) : Job :=
  {| job_id := job_id j; func := func j; args := args j; kwargs := kwargs j;
     state := s; percentage_progress := percentage_progress j;
     cancellable := cancellable j; track_progress := track_progress j;
     exception := exception j; traceback := traceback j;
     extra_metadata := extra_metadata j |}.

(** Modelled from the spec: the storage update of [percentage_progress]. *)
Definition set_progress (p : Q) (j : Job) : Job :=
  {| job_id := job_id j; func := func j; args := args j; kwargs := kwargs j;
     state := state j; percentage_progress := p;
     cancellable := cancellable j; track_progress := track_progress j;
     exception := exception j; traceback := traceback j;
     extra_metadata := extra_metadata j |}.

(** Modelled from the spec: the storage update that records a failure:
    state [FAILED] with the exception text and the stack trace. *)
Definition set_failure (e tb : string) (j : Job) : Job :=
  {| job_id := job_id j; func := func j; args := args j; kwargs := kwargs j;
     state := FAILED; percentage_progress := percentage_progress j;
     cancellable := cancellable j; track_progress := track_progress j;
     exception := Some e; traceback := Some tb;
     extra_metadata := extra_metadata j |}.

(** Modelled from the spec: [enqueue] rejects a function reference that
    does not resolve, otherwise creates a job in [SCHEDULED] with progress
    [0.0] under an identifier never issued before, persists it and returns
    the identifier. *)
Definition enqueue (fn : string) (a : list pyval) (kw : pydict)
    (can track : bool) (extra : pydict) : M queue string :=
  fun q =>
    if decide (fn ∈ q_registry q) then
      let id := fresh (q_issued q) in
      let j := {| job_id := id; func := fn; args := a; kwargs := kw;
                  state := SCHEDULED; percentage_progress := 0;
                  cancellable := can; track_progress := track;
                  exception := None; traceback := None;
                  extra_metadata := extra |} in
      (Ok id, {| q_jobs := <[id := j]> (q_jobs q);
                 q_issued := {[id]} ∪ q_issued q;
                 q_registry := q_registry q |})
    else (Raise InvalidFunctionError, q).

(** Modelled from the spec: [fetch_job] fails with [JobNotFound] if no
    record with that id exists. *)
Definition fetch_job (id : string) : M queue Job :=
  fun q =>
    match q_jobs q !! id with
    | Some j => (Ok j, q)
    | None => (Raise JobNotFound, q)
    end.

(** Modelled from the spec: the state a cancel request moves a cancellable
    job to: [SCHEDULED]/[QUEUED] go to [CANCELED] synchronously, [RUNNING]
    goes to [CANCELING], terminal states (and [CANCELING]) stay. *)
Definition cancel_target (s : State) : State :=
  match s with
  | SCHEDULED | QUEUED => CANCELED
  | RUNNING => CANCELING
  | CANCELING => CANCELING
  | CANCELED => CANCELED
  | COMPLETED => COMPLETED
  | FAILED => FAILED
  end.

(** Modelled from the spec: a cancel request on one record; a job that is
    not cancellable rejects it, a terminal job is left untouched. *)
Definition cancel_job (j : Job) : Job :=
  if cancellable j then
    if terminal (state j) then j else set_state (cancel_target (state j)) j
  else j.

(** Modelled from the spec: [cancel] fails with [JobNotFound] if the id
    does not exist; a job that is not cancellable, or already terminal, is
    left as it is. *)
Definition cancel (id : string) : M queue unit :=
  fun q =>
    match q_jobs q !! id with
    | Some j => (Ok tt, set_jobs (<[id := cancel_job j]>) q)
    | None => (Raise JobNotFound, q)
    end.

(** Modelled from the spec: [clear_job] removes a job in a terminal state,
    silently ignores a non-terminal one, and fails with [JobNotFound] when
    the id is absent. *)
Definition clear_job (id : string) : M queue unit :=
  fun q =>
    match q_jobs q !! id with
    | Some j =>
        if terminal (state j) then (Ok tt, set_jobs (delete id) q)
        else (Ok tt, q)
    | None => (Raise JobNotFound, q)
    end.

(** Modelled from the spec: [clear] removes all jobs in a terminal state. *)
Definition clear : M queue unit :=
  modify (set_jobs (filter (fun kv => terminal (state (snd kv)) = false))).

(** Modelled from the spec: [empty] cancels every non-terminal job. *)
Definition empty : M queue unit :=
  modify (set_jobs (fmap cancel_job)).

(** Modelled from the spec: [update_progress] clamps the fraction to
    [0, 1]. *)
Definition clamp (f : Q) : Q :=
  if Qle_bool f 0 then 0 else if Qle_bool 1 f then 1 else f.

(** Modelled from the spec: a progress update on one record. *)
Definition progress_job (f : Q) (j : Job) : Job :=
  if track_progress j then
    match state j with
    | RUNNING => set_progress (clamp f) j
    | _ => j
    end
  else j.

(** Modelled from the spec: the [update_progress] callable injected into the
    body of job [id]: a no-op if [track_progress] is false, ignored if the
    job is no longer [RUNNING]. *)
Definition update_progress (id : string) (f : Q) : M queue unit :=
  fun q =>
    match q_jobs q !! id with
    | Some j => (Ok tt, set_jobs (<[id := progress_job f j]>) q)
    | None => (Ok tt, q)
    end.

(** Modelled from the spec: the [check_for_cancel] callable injected into
    the body of job [id] raises the cancellation signal if the job's state
    is [CANCELING]. *)
Definition check_for_cancel (id : string) : M queue unit :=
  fun q =>
    match q_jobs q !! id with
    | Some j =>
        match state j with
        | CANCELING => (Raise UserCancelledError, q)
        | _ => (Ok tt, q)
        end
    | None => (Ok tt, q)
    end.

(** Modelled from the spec: how the execution wrapper of the worker pool
    ends a job. *)
Inductive outcome : Type :=
  | Returned
  | Failed (e tb : string)
  | CancelAcknowledged.

(** Modelled from the spec: the transitions of section 4.1 that the worker
    pool drives. *)
Definition accept_job (j : Job) : Job :=
  match state j with SCHEDULED => set_state QUEUED j | _ => j end.

Definition claim_job (j : Job) : Job :=
  match state j with QUEUED => set_state RUNNING j | _ => j end.

Definition finish_job (o : outcome) (j : Job) : Job :=
  match state j, o with
  | (RUNNING | CANCELING), Returned =>
      set_state COMPLETED
        (if track_progress j then set_progress 1 j else j)
  | (RUNNING | CANCELING), Failed e tb => set_failure e tb j
  | CANCELING, CancelAcknowledged => set_state CANCELED j
  | _, _ => j
  end.

(** Modelled from the spec: the worker pool rewrites the record of the job
    it holds; an id without a record is left alone. *)
Definition on_job (f : Job -> Job) (id : string) : M queue unit :=
  fun q =>
    match q_jobs q !! id with
    | Some j => (Ok tt, set_jobs (<[id := f j]>) q)
    | None => (Ok tt, q)
    end.

Definition accept (id : string) : M queue unit := on_job accept_job id.
Definition claim (id : string) : M queue unit := on_job claim_job id.
Definition finish (id : string) (o : outcome) : M queue unit :=
  on_job (finish_job o) id.

(** Modelled from the spec: every operation of the facade, the callbacks
    and the worker pool, as one request type. *)
Inductive op : Type :=
  | OpEnqueue (fn : string) (a : list pyval) (kw : pydict)
      (can track : bool) (extra : pydict)
  | OpFetch (id : string)
  | OpCancel (id : string)
  | OpClearJob (id : string)
  | OpClear
  | OpEmpty
  | OpUpdateProgress (id : string) (f : Q)
  | OpCheckForCancel (id : string)
  | OpAccept (id : string)
  | OpClaim (id : string)
  | OpFinish (id : string) (o : outcome).

(** The queue after one operation. *)
Definition run (o : op) (q : queue) : queue :=
  match o with
  | OpEnqueue fn a kw can track extra => snd (enqueue fn a kw can track extra q)
  | OpFetch id => snd (fetch_job id q)
  | OpCancel id => snd (cancel id q)
  | OpClearJob id => snd (clear_job id q)
  | OpClear => snd (clear q)
  | OpEmpty => snd (empty q)
  | OpUpdateProgress id f => snd (update_progress id f q)
  | OpCheckForCancel id => snd (check_for_cancel id q)
  | OpAccept id => snd (accept id q)
  | OpClaim id => snd (claim id q)
  | OpFinish id o => snd (finish id o q)
  end.

(** A queue is well formed when every stored record sits under its own id
    and every stored id has been issued. *)
Definition wf (q : queue) : Prop :=
  forall id j, q_jobs q !! id = Some j -> job_id j = id /\ id ∈ q_issued q.

(** No transformer of the model moves a terminal record. *)
Definition fixes_terminal (f : Job -> Job) : Prop :=
  forall j, terminal (state j) = true -> f j = j.

(** Modelled from the spec: the queue of a starting process: no records,
    no identifier issued, the registered job bodies. *)
Definition new_queue (registry : gset string) : queue :=
  {| q_jobs := ∅; q_issued := ∅; q_registry := registry |}.

(** The queues a process can be in: a new queue after any number of
    operations. *)
Inductive reachable : queue -> Prop :=
  | reachable_new registry : reachable (new_queue registry)
  | reachable_run o q : reachable q -> reachable (run o q).

End Queue.

(** ** The web layer *)

(** The calls an endpoint makes on the queue object, in order. *)
Inductive qcall : Type :=
  | CallFetchJob (id : string)
  | CallCancel (id : pyval)
  | CallClearJob (id : pyval).

(** What an endpoint runs against: the process-wide queue and the record of
    the calls made on it. *)
Record world : Type := mkWorld {
  w_queue : Queue.queue;
  w_calls : list qcall;
}.

Definition log_call (c : qcall) : M world unit :=
  modify (fun w => {| w_queue := w_queue w; w_calls := (w_calls w ++ [c])%list |}).

Definition on_queue {A} (m : M Queue.queue A) : M world A :=
  fun w =>
    let '(r, q') := m (w_queue w) in
    (r, {| w_queue := q'; w_calls := w_calls w |}).

(** The world after one more call [c] that left the queue as [q]. *)
Definition logged (c : qcall) (q : Queue.queue) (w : world) : world :=
  {| w_queue := q; w_calls := (w_calls w ++ [c])%list |}.

(** The queue issues string identifiers, so a value that is not a string
    names no record. *)
Definition key_of (v : pyval) : option string :=
  match v with VStr s => Some s | _ => None end.

(** [queue.fetch_job(pk)] *)
Definition queue_fetch_job (pk : string) : M world Job :=
  log_call (CallFetchJob pk) ;; on_queue (Queue.fetch_job pk).

(** [queue.cancel(task_id)] *)
Definition queue_cancel (task_id : pyval) : M world unit :=
  log_call (CallCancel task_id) ;;
  match key_of task_id with
  | Some id => on_queue (Queue.cancel id)
  | None => raise JobNotFound
  end.

(** [queue.clear_job(task_id)] *)
Definition queue_clear_job (task_id : pyval) : M world unit :=
  log_call (CallClearJob task_id) ;;
  match key_of task_id with
  | Some id => on_queue (Queue.clear_job id)
  | None => raise JobNotFound
  end.

Record Request : Type := mkRequest { data : pydict }.

(** [rest_framework.response.Response(data)], status 200 unless given. *)
Record Response : Type := mkResponse {
  resp_data : pydict;
  status_code : Z;
}.

Definition respond (d : pydict) : Response :=
  {| resp_data := d; status_code := 200 |}.

(** [d.get(k)] *)
Definition dict_get (d : pydict) (k : string) : pyval :=
  match d !! k with
  | Some v => v
  | None => VNone
  end.

Definition is_JobNotFound (e : exn) : bool :=
  match e with JobNotFound => true | _ => false end.

(** The status the framework's exception handler answers with when a view
    raises: [Http404] becomes 404, [ValidationError] 400, anything else is a
    server error. *)
Definition http_status (r : result Response) : Z :=
  match r with
  | Ok resp => status_code resp
  | Raise (Http404 _) => 404
  | Raise (ValidationError _) => 400
  | Raise _ => 500
  end.

Module TasksViewSet.

(** [TasksViewSet.retrieve] *)
Definition retrieve (pk : string) : M world Response :=
  try_except
    (job <- queue_fetch_job pk ;;
     let task := _job_to_response (Some job) in
     ret (respond task))
    is_JobNotFound
    (fun _ => raise (Http404 ("Task with " ++ pk ++ " not found"))).

(** [TasksViewSet.canceltask] *)
Definition canceltask (request : Request) : M world Response :=
  match data request !! "task_id" with
  | None => raise (ValidationError "The 'task_id' field is required.")
  | Some task_id =>
      if negb (is_string task_id) then
        raise (ValidationError "The 'task_id' should be a string.")
      else
        try_except (queue_cancel task_id) is_JobNotFound (fun _ => ret tt) ;;
        ret (respond ∅)
  end.

(** [TasksViewSet.cleartask] *)
Definition cleartask (request : Request) : M world Response :=
  let task_id := dict_get (data request) "task_id" in
  if truthy task_id then
    queue_clear_job task_id ;;
    ret (respond (<["task_id" := task_id]> ∅))
  else ret (respond ∅).

End TasksViewSet.

(** What an observer asking for [pk] sees when there is no such job:
    [queue.fetch_job] raises [JobNotFound] and the retrieve endpoint answers
    404 with a message that names [pk]. *)
Definition reports_not_found (pk : string) (w : world) : Prop :=
  Queue.fetch_job pk (w_queue w) = (Raise JobNotFound, w_queue w) /\
  fst (TasksViewSet.retrieve pk w) =
    Raise (Http404 ("Task with " ++ pk ++ " not found")) /\
  http_status (fst (TasksViewSet.retrieve pk w)) = 404%Z.

(** ** The disk export job body *)

Inductive syscall : Type :=
  | Remove (path : string).

(** The drive's file system as [os.remove] sees it: the files present, the
    paths whose removal the operating system refuses, and the calls made. *)
Record fsworld : Type := mkFs {
  files : gset string;
  undeletable : gset string;
  syscalls : list syscall;
}.

(** [os.remove(path)]: raises [OSError] when the file is missing or cannot
    be removed. *)
Definition os_remove (path : string) : M fsworld unit :=
  fun w =>
    let calls := (syscalls w ++ [Remove path])%list in
    if decide (path ∈ files w ∧ path ∉ undeletable w) then
      (Ok tt, {| files := files w ∖ {[path]}; undeletable := undeletable w;
                 syscalls := calls |})
    else
      (Raise OSError, {| files := files w; undeletable := undeletable w;
                         syscalls := calls |}).

Definition is_UserCancelledError (e : exn) : bool :=
  match e with UserCancelledError => true | _ => false end.

Definition is_OSError (e : exn) : bool :=
  match e with OSError => true | _ => false end.

Record Drive : Type := mkDrive { datafolder : string }.

Section LocalExport.

(** The callables a job body receives from the scheduler. *)
Variable callback : Type.

(** [get_mounted_drive_by_id], [call_command] and
    [get_content_database_file_path] are collaborators of the job body. *)
Variable get_mounted_drive_by_id : string -> M fsworld Drive.
Variable call_command :
  string -> list pyval -> list (string * pyval) ->
  option callback -> option callback -> M fsworld unit.
Variable get_content_database_file_path : string -> string -> string.

(** [_localexport] *)
Definition _localexport (channel_id drive_id : string)
    (update_progress check_for_cancel : option callback)
    (node_ids exclude_node_ids : pyval) : M fsworld unit :=
  drive <- get_mounted_drive_by_id drive_id ;;
  call_command "exportchannel"
    [VStr channel_id; VStr (datafolder drive)] []
    update_progress check_for_cancel ;;
  try_except
    (call_command "exportcontent"
       [VStr channel_id; VStr (datafolder drive)]
       [("node_ids", node_ids); ("exclude_node_ids", exclude_node_ids)]
       update_progress check_for_cancel)
    is_UserCancelledError
    (fun e =>
       try_except
         (os_remove
            (get_content_database_file_path channel_id (datafolder drive)))
         is_OSError
         (fun _ => ret tt) ;;
       raise e).

End LocalExport.

(** ** Sample data *)

(** A job whose caller-supplied metadata uses the keys [id] and [status]. *)
Definition clash_job : Job :=
  {| job_id := "a1"; func := "call_command"; args := [VStr "exportlogs"];
     kwargs := ∅; state := RUNNING; percentage_progress := 1 # 2;
     cancellable := true; track_progress := true;
     exception := None; traceback := None;
     extra_metadata :=
       <["id" := VStr "channel-7"]> (<["status" := VStr "fresh"]> ∅) |}.

(** A job as the endpoints of this file enqueue it. *)
Definition plain_job : Job :=
  {| job_id := "a1"; func := "call_command"; args := [VStr "exportlogs"];
     kwargs := ∅; state := RUNNING; percentage_progress := 1 # 2;
     cancellable := false; track_progress := true;
     exception := None; traceback := None;
     extra_metadata :=
       <["type" := VStr "EXPORTSUMMARYLOGCSV"]> (<["started_by" := VInt 1]> ∅) |}.


(** The registry of a server whose job bodies are [call_command] and
    [_localexport]. *)
Definition sample_registry : gset string :=
  {[ "call_command"; "_localexport" ]}.

(** The queue after [startdataportalsync] enqueued its job, which is not
    cancellable; the job gets the id ["0"]. *)
Definition sync_queue : Queue.queue :=
  Queue.run
    (Queue.OpEnqueue "call_command" [VStr "sync"]
       (<["facility" := VStr "f1"]> (<["noninteractive" := VBool true]> ∅))
       false false
       (<["facility" := VStr "f1"]>
         (<["type" := VStr "SYNCDATAPORTAL"]> (<["started_by" := VInt 1]> ∅))))
    (Queue.new_queue sample_registry).

(** The queue after a cancellable disk export was enqueued (id ["0"]). *)
Definition export_queue : Queue.queue :=
  Queue.run
    (Queue.OpEnqueue "_localexport" [VStr "c1"; VStr "d1"] ∅ true true
       (<["type" := VStr "DISKEXPORT"]> ∅))
    (Queue.new_queue sample_registry).

(** The same queue once a worker ran the export to completion. *)
Definition done_queue : Queue.queue :=
  Queue.run (Queue.OpFinish "0" Queue.Returned)
    (Queue.run (Queue.OpClaim "0")
       (Queue.run (Queue.OpAccept "0") export_queue)).

Definition task_request (task_id : pyval) : Request :=
  {| data := <["task_id" := task_id]> ∅ |}.

(** A cancelled export against a drive mounted under [/media]: the channel
    export writes the database file, the content export is cancelled. *)
Definition sample_db_path (channel_id folder : string) : string :=
  folder ++ "/content/databases/" ++ channel_id ++ ".sqlite3".

Definition sample_drive (drive_id : string) : M fsworld Drive :=
  ret {| datafolder := "/media/" ++ drive_id |}.

Definition sample_command (name : string) (a : list pyval)
    (kw : list (string * pyval)) (update_progress check_for_cancel : option unit)
    : M fsworld unit :=
  match a with
  | [VStr channel_id; VStr folder] =>
      if String.eqb name "exportchannel" then
        modify (fun w =>
          {| files := {[sample_db_path channel_id folder]} ∪ files w;
             undeletable := undeletable w; syscalls := syscalls w |})
      else raise UserCancelledError
  | _ => raise KeyError
  end.

Definition empty_fs : fsworld :=
  {| files := ∅; undeletable := ∅; syscalls := [] |}.

(** * More of the task API, the user lookup and the fixture generator

    The validators and the remaining endpoints of [kolibri/core/tasks/api.py],
    [RemoteFacilityUserViewset] of the user profile plugin, and the tree
    builder of [generate_content_data]. *)

From stdpp Require pretty.

(** ** Task validation *)

(** [request.user], as far as the task endpoints read it. *)
Record User : Type := mkUser {
  user_pk : pyval;
  user_username : string;
}.

(** A [ChannelMetadata] row, as far as the validators read it. *)
Record Channel : Type := mkChannel {
  ch_name : string;
  ch_published_size : pyval;
  ch_total_resource_count : pyval;
}.

(** What [Model.objects.get(...)] does: return the row, raise the model's
    own [DoesNotExist], or raise something else. *)
Inductive lookup (A : Type) : Type :=
  | Found (a : A)
  | DoesNotExist
  | LookupRaises (e : exn).
Arguments Found {A} a.
Arguments DoesNotExist {A}.
Arguments LookupRaises {A} e.

(** [d.get(k, dflt)] *)
Definition dict_get_default (d : pydict) (k : string) (dflt : pyval) : pyval :=
  match d !! k with
  | Some v => v
  | None => dflt
  end.

(** [d[k]] *)
Definition getitem {S} (d : pydict) (k : string) : M S pyval :=
  match d !! k with
  | Some v => ret v
  | None => raise KeyError
  end.

(** [isinstance(v, list)] *)
Definition is_list (v : pyval) : bool :=
  match v with VList _ => true | _ => false end.

Definition is_KeyError (e : exn) : bool :=
  match e with KeyError => true | _ => false end.

Section Validation.

(** The world the validators run in; they only read the database. *)
Context {S : Type}.

(** [ChannelMetadata.objects.get(id=...)],
    [NetworkLocation.objects.values_list("base_url", flat=True).get(id=...)],
    [conf.OPTIONS["Urls"]["CENTRAL_CONTENT_BASE_URL"]], [str.format] on one
    value, and [get_mounted_drive_by_id]. *)
Variable channel_metadata_get : pyval -> lookup Channel.
Variable network_location_base_url : pyval -> lookup string.
Variable CENTRAL_CONTENT_BASE_URL : string.
Variable py_format : pyval -> string.
Variable get_mounted_drive_by_id : pyval -> M S Drive.

(** [validate_content_task] *)
Definition validate_content_task (user : User) (task_description : pydict)
    (require_channel : bool) : M S pydict :=
  match task_description !! "channel_id" with
  | None => raise (ValidationError "The channel_ids field is required.")
  | Some channel_id =>
      found <-
        match channel_metadata_get channel_id with
        | Found channel =>
            ret (ch_name channel, ch_published_size channel,
                 ch_total_resource_count channel)
        | DoesNotExist =>
            if require_channel then
              raise (ValidationError "This channel does not exist")
            else ret ("", VNone, VNone)
        | LookupRaises e => raise e
        end ;;
      let '(channel_name, file_size, total_resources) := found in
      let file_size := dict_get_default task_description "file_size" file_size in
      let total_resources :=
        dict_get_default task_description "total_resources" total_resources in
      let node_ids := dict_get_default task_description "node_ids" VNone in
      let exclude_node_ids :=
        dict_get_default task_description "exclude_node_ids" VNone in
      if truthy node_ids && negb (is_list node_ids) then
        raise (ValidationError "node_ids must be a list.")
      else if truthy exclude_node_ids && negb (is_list exclude_node_ids) then
        raise (ValidationError "exclude_node_ids must be a list.")
      else
        ret (<["channel_id" := channel_id]>
            (<["channel_name" := VStr channel_name]>
            (<["file_size" := file_size]>
            (<["total_resources" := total_resources]>
            (<["exclude_node_ids" := exclude_node_ids]>
            (<["node_ids" := node_ids]>
            (<["started_by" := user_pk user]>
            (<["started_by_username" := VStr (user_username user)]> ∅))))))))
  end.

(** [validate_remote_import_task]; the [except KeyError] clause also covers
    a [KeyError] out of the peer lookup. *)
Definition validate_remote_import_task (user : User) (task_description : pydict)
    : M S pydict :=
  import_task <- validate_content_task user task_description false ;;
  peer <-
    match task_description !! "peer_id" with
    | None => ret (CENTRAL_CONTENT_BASE_URL, VNone)
    | Some peer_id =>
        match network_location_base_url peer_id with
        | Found baseurl => ret (baseurl, peer_id)
        | DoesNotExist =>
            raise (ValidationError
                     ("Peer with id " ++ py_format peer_id ++ " does not exist"))
        | LookupRaises e =>
            if is_KeyError e then ret (CENTRAL_CONTENT_BASE_URL, VNone)
            else raise e
        end
    end ;;
  let '(baseurl, peer_id) := peer in
  ret (dict_update import_task
         (<["baseurl" := VStr baseurl]> (<["peer_id" := peer_id]> ∅))).

(** [_add_drive_info] *)
Definition _add_drive_info (import_task task_description : pydict) : M S pydict :=
  match task_description !! "drive_id" with
  | None => raise (ValidationError "The drive_id field is required.")
  | Some drive_id =>
      drive <-
        try_except (get_mounted_drive_by_id drive_id) is_KeyError
          (fun _ =>
             raise (ValidationError
                      "That drive_id was not found in the list of drives.")) ;;
      ret (dict_update import_task
             (<["drive_id" := drive_id]>
             (<["datafolder" := VStr (datafolder drive)]> ∅)))
  end.

(** [validate_local_import_task] *)
Definition validate_local_import_task (user : User) (task_description : pydict)
    : M S pydict :=
  task <- validate_content_task user task_description false ;;
  _add_drive_info task task_description.

(** [validate_local_export_task] *)
Definition validate_local_export_task (user : User) (task_description : pydict)
    : M S pydict :=
  task <- validate_content_task user task_description true ;;
  _add_drive_info task task_description.

(** [validate_deletion_task] *)
Definition validate_deletion_task (user : User) (task_description : pydict)
    : M S pydict :=
  task <- validate_content_task user task_description true ;;
  ret (<["force_delete" := VBool (truthy (dict_get task_description "force_delete"))]>
         task).

End Validation.

(** ** Permissions of the task endpoints *)

(** The permission classes of [kolibri.core.content.permissions] and the
    framework's [|] on permission classes. *)
Inductive permission : Type :=
  | CanManageContent
  | CanExportLogs
  | PermOr (p q : permission).

(** [TasksViewSet.get_permissions], by [self.action]. *)
Definition get_permissions (action : string) : list permission :=
  if bool_decide (action ∈ ["list"; "deletefinishedtasks"]) then
    [PermOr CanManageContent CanExportLogs]
  else if String.eqb action "startexportlogcsv" then
    [CanExportLogs]
  else
    [CanManageContent].

Section Permissions.

(** What the two permission classes answer for the requesting user. *)
Variable can_manage_content : bool.
Variable can_export_logs : bool.

(** [permission.has_permission(request, view)] *)
Fixpoint has_permission (p : permission) : bool :=
  match p with
  | CanManageContent => can_manage_content
  | CanExportLogs => can_export_logs
  | PermOr p q => has_permission p || has_permission q
  end.

(** The framework admits a request when every permission of the view's
    list grants it. *)
Definition permitted (action : string) : bool :=
  forallb has_permission (get_permissions action).

End Permissions.

(** ** The endpoints that start and clear jobs *)

(** [queue.enqueue(function, *args, cancellable=..., track_progress=...,
    extra_metadata=..., **kwargs)] *)
Definition queue_enqueue (fn : string) (a : list pyval) (kw : pydict)
    (can track : bool) (extra : pydict) : M world string :=
  on_queue (Queue.enqueue fn a kw can track extra).

(** [queue.clear()] *)
Definition queue_clear : M world unit := on_queue Queue.clear.

Section StartEndpoints.

Variable channel_metadata_get : pyval -> lookup Channel.
Variable network_location_base_url : pyval -> lookup string.
Variable CENTRAL_CONTENT_BASE_URL : string.
Variable py_format : pyval -> string.

(** [TasksViewSet.startremotechannelimport] *)
Definition startremotechannelimport (user : User) (request : Request)
    : M world Response :=
  task <- validate_remote_import_task channel_metadata_get
            network_location_base_url CENTRAL_CONTENT_BASE_URL py_format
            user (data request) ;;
  let task := dict_update task (<["type" := VStr "REMOTECHANNELIMPORT"]> ∅) in
  channel_id <- getitem task "channel_id" ;;
  baseurl <- getitem task "baseurl" ;;
  peer_id <- getitem task "peer_id" ;;
  job_id <- queue_enqueue "call_command"
              [VStr "importchannel"; VStr "network"; channel_id]
              (<["baseurl" := baseurl]> (<["peer_id" := peer_id]> ∅))
              true false task ;;
  job <- queue_fetch_job job_id ;;
  ret (respond (_job_to_response (Some job))).

(** [TasksViewSet.startdeletechannel] *)
Definition startdeletechannel (user : User) (request : Request)
    : M world Response :=
  task <- validate_deletion_task channel_metadata_get user (data request) ;;
  let task := dict_update task (<["type" := VStr "DELETECONTENT"]> ∅) in
  node_ids <- getitem task "node_ids" ;;
  restricted <-
    (if truthy node_ids then ret true
     else exclude_node_ids <- getitem task "exclude_node_ids" ;;
          ret (truthy exclude_node_ids)) ;;
  let task :=
    if restricted : bool then
      <["total_resources" := VNone]> (<["file_size" := VNone]> task)
    else task in
  channel_id <- getitem task "channel_id" ;;
  node_ids <- getitem task "node_ids" ;;
  exclude_node_ids <- getitem task "exclude_node_ids" ;;
  force_delete <- getitem task "force_delete" ;;
  task_id <- queue_enqueue "call_command"
               [VStr "deletecontent"; channel_id]
               (<["node_ids" := node_ids]>
               (<["exclude_node_ids" := exclude_node_ids]>
               (<["force_delete" := force_delete]> ∅)))
               false true task ;;
  job <- queue_fetch_job task_id ;;
  ret (respond (_job_to_response (Some job))).

End StartEndpoints.

(** [TasksViewSet.startdataportalsync] *)
Definition startdataportalsync (user : User) (request : Request)
    : M world Response :=
  facility <- getitem (data request) "facility" ;;
  let task :=
    <["facility" := facility]>
    (<["type" := VStr "SYNCDATAPORTAL"]>
    (<["started_by" := user_pk user]> ∅)) in
  facility <- getitem task "facility" ;;
  job_id <- queue_enqueue "call_command" [VStr "sync"]
              (<["facility" := facility]> (<["noninteractive" := VBool true]> ∅))
              false false task ;;
  job <- queue_fetch_job job_id ;;
  ret (respond (_job_to_response (Some job))).

(** [TasksViewSet.deletefinishedtasks] *)
Definition deletefinishedtasks (request : Request) : M world Response :=
  let task_id := dict_get (data request) "task_id" in
  (if truthy task_id then queue_clear_job task_id else queue_clear) ;;
  ret (respond ∅).

(** ** Vocabulary of the validation properties *)

(** The value passes [if v and not isinstance(v, list)]. *)
Definition list_or_falsy (v : pyval) : bool := negb (truthy v) || is_list v.

(** The keys of the dict [validate_content_task] returns. *)
Definition content_task_keys : gset string :=
  list_to_set ["channel_id"; "channel_name"; "file_size"; "total_resources";
               "exclude_node_ids"; "node_ids"; "started_by";
               "started_by_username"].

(** The keys [_job_to_response] writes from the job itself. *)
Definition summary_keys : gset string :=
  list_to_set ["status"; "exception"; "traceback"; "percentage"; "id";
               "cancellable"].

(** The dict [validate_content_task] builds from the values it gathered. *)
Definition content_task (channel_id : pyval) (channel_name : string)
    (file_size total_resources exclude_node_ids node_ids : pyval) (user : User)
    : pydict :=
  <["channel_id" := channel_id]>
  (<["channel_name" := VStr channel_name]>
  (<["file_size" := file_size]>
  (<["total_resources" := total_resources]>
  (<["exclude_node_ids" := exclude_node_ids]>
  (<["node_ids" := node_ids]>
  (<["started_by" := user_pk user]>
  (<["started_by_username" := VStr (user_username user)]> ∅))))))).

(** When [validate_content_task] lets a task description through. *)
Definition content_task_acceptable (channel_metadata_get : pyval -> lookup Channel)
    (task_description : pydict) (require_channel : bool) : Prop :=
  exists channel_id,
    task_description !! "channel_id" = Some channel_id /\
    match channel_metadata_get channel_id with
    | Found _ => True
    | DoesNotExist => require_channel = false
    | LookupRaises _ => False
    end /\
    list_or_falsy (dict_get_default task_description "node_ids" VNone) = true /\
    list_or_falsy (dict_get_default task_description "exclude_node_ids" VNone) = true.

(** A database with the one channel ["c1"] and the one peer [7], and a
    machine with the one drive ["d1"]. *)
Definition sample_channels (channel_id : pyval) : lookup Channel :=
  match channel_id with
  | VStr "c1" =>
      Found {| ch_name := "Algebra"; ch_published_size := VInt 4096;
               ch_total_resource_count := VInt 12 |}
  | _ => DoesNotExist
  end.

Definition sample_peers (peer_id : pyval) : lookup string :=
  match peer_id with
  | VInt 7 => Found "http://peer.local/"
  | _ => DoesNotExist
  end.

Definition sample_format (v : pyval) : string :=
  match v with
  | VStr s => s
  | VNone => "None"
  | _ => "?"
  end.

Definition sample_drives {S} (drive_id : pyval) : M S Drive :=
  match drive_id with
  | VStr "d1" => ret {| datafolder := "/media/d1" |}
  | _ => raise KeyError
  end.

Definition sample_user : User := {| user_pk := VInt 1; user_username := "admin" |}.

Definition sample_world : world := {| w_queue := export_queue; w_calls := [] |}.

(** Task descriptions as a client posts them. *)
Definition td_import : pydict :=
  <["channel_id" := VStr "c1"]>
  (<["node_ids" := VList [VStr "n1"]]>
  (<["file_size" := VNone]>
  (<["peer_id" := VInt 7]>
  (<["drive_id" := VStr "d1"]> ∅)))).

Definition td_unknown_channel : pydict :=
  <["channel_id" := VStr "zz"]>
  (<["peer_id" := VInt 8]>
  (<["drive_id" := VStr "d9"]> ∅)).

Definition td_bad_nodes : pydict :=
  <["channel_id" := VStr "c1"]>
  (<["node_ids" := VStr "n1"]>
  (<["exclude_node_ids" := VInt 3]> ∅)).

Definition td_bad_exclude : pydict :=
  <["channel_id" := VStr "c1"]>
  (<["node_ids" := VStr ""]>
  (<["exclude_node_ids" := VInt 3]> ∅)).

Definition td_delete : pydict :=
  <["channel_id" := VStr "c1"]> (<["force_delete" := VInt 1]> ∅).

(** The task of a remote channel import as the endpoint hands it to the
    queue: the content entries, the peer and the type. *)
Definition remote_channel_import_task (content : pydict) (baseurl : string)
    (peer_id : pyval) : pydict :=
  dict_update
    (dict_update content
       (<["baseurl" := VStr baseurl]> (<["peer_id" := peer_id]> ∅)))
    (<["type" := VStr "REMOTECHANNELIMPORT"]> ∅).

(** The job [queue.enqueue] creates, by what the caller passed. *)
Definition new_job (id fn : string) (a : list pyval) (kw : pydict)
    (can track : bool) (extra : pydict) : Job :=
  {| job_id := id; func := fn; args := a; kwargs := kw;
     state := SCHEDULED; percentage_progress := 0;
     cancellable := can; track_progress := track;
     exception := None; traceback := None;
     extra_metadata := extra |}.

Definition request_of (d : pydict) : Request := {| data := d |}.

Definition td_delete_some : pydict :=
  <["channel_id" := VStr "c1"]> (<["node_ids" := VList [VStr "n1"]]> ∅).

Definition td_sync : pydict := <["facility" := VStr "f1"]> ∅.

(** A drive on which already the channel export is cancelled. *)
Definition cancelled_early_command (name : string) (a : list pyval)
    (kw : list (string * pyval)) (update_progress check_for_cancel : option unit)
    : M fsworld unit :=
  modify (fun w =>
    {| files := {["/media/d1/content/databases/c1.sqlite3"]} ∪ files w;
       undeletable := undeletable w; syscalls := syscalls w |}) ;;
  raise UserCancelledError.

(** ** The remote facility user lookup of the user profile plugin *)

Module RemoteFacilityUserViewset.

(** The request, as far as the view reads it: the query parameters and
    [request.build_absolute_uri("/")]. *)
Record ProfileRequest : Type := mkProfileRequest {
  query_params : gmap string string;
  absolute_root : string;
}.

(** The requests this server sent out: url and parameters, in order. *)
Definition net : Type := list (string * gmap string string).

(** [{"facility": facility, "search": username}] *)
Definition search_params (facility username : string) : gmap string string :=
  <["facility" := facility]> (<["search" := username]> ∅).

Section View.

(** The decoded body of the remote answer. *)
Variable json : Type.

(** What [requests.get] returns: the status code and what [.json()] gives. *)
Record RemoteResponse : Type := mkRemoteResponse {
  remote_status_code : Z;
  remote_json : result json;
}.

(** What the view answers, both with status 200: [Response(response.json())]
    or [Response({})]. *)
Inductive reply : Type :=
  | ReplyJson (j : json)
  | ReplyEmpty.

(** [reverse_remote], the remote server as [requests.get] meets it (it
    answers or the call raises), and [str] on an exception. *)
Variable reverse_remote : string -> string -> result string.
Variable remote : string -> gmap string string -> result RemoteResponse.
Variable exn_str : exn -> string.

(** [requests.get(url, params=params)] *)
Definition requests_get (url : string) (params : gmap string string)
    : M net RemoteResponse :=
  fun sent => (remote url params, (sent ++ [(url, params)])%list).

Definition of_result {A} (r : result A) : M net A := fun sent => (r, sent).

(** [RemoteFacilityUserViewset.get]; [except Exception] catches every
    exception of the model. *)
Definition get (request : ProfileRequest) : M net reply :=
  let baseurl :=
    match query_params request !! "baseurl" with
    | Some b => b
    | None => absolute_root request
    end in
  match query_params request !! "username", query_params request !! "facility" with
  | Some username, Some facility =>
      url <- of_result (reverse_remote baseurl "kolibri:core:publicsearchuser-list") ;;
      try_except
        (response <- requests_get url (search_params facility username) ;;
         if (remote_status_code response =? 200)%Z then
           j <- of_result (remote_json response) ;;
           ret (ReplyJson j)
         else ret ReplyEmpty)
        (fun _ => true)
        (fun e => raise (ValidationError (exn_str e)))
  | _, _ => raise (ValidationError "Both username and facility are required")
  end.

End View.

End RemoteFacilityUserViewset.

(** A remote server that knows facility ["f1"], answers 404 for ["f2"] and
    is unreachable otherwise; bodies are kept as text. *)
Definition sample_reverse_remote (baseurl name : string) : result string :=
  Ok (baseurl ++ "api/public/v1/facilitysearchuser/").

Definition sample_remote (url : string) (params : gmap string string)
    : result (RemoteFacilityUserViewset.RemoteResponse string) :=
  match params !! "facility" with
  | Some "f1" =>
      Ok (RemoteFacilityUserViewset.mkRemoteResponse string 200 (Ok "[{'username': 'ann'}]"))
  | Some "f2" =>
      Ok (RemoteFacilityUserViewset.mkRemoteResponse string 404 (Ok "{}"))
  | _ => Raise OSError
  end.

Definition sample_exn_str (e : exn) : string := "connection refused".

Definition profile_request (params : gmap string string)
    : RemoteFacilityUserViewset.ProfileRequest :=
  {| RemoteFacilityUserViewset.query_params := params;
     RemoteFacilityUserViewset.absolute_root := "http://localhost:8080/" |}.

(** ** The fixture generator: [generate_content_data] *)

(** [[body(i) for i in range(n)]], also the shape of a [for] loop that
    appends one result per round. *)
Fixpoint mapM {S A B} (body : A -> M S B) (l : list A) : M S (list B) :=
  match l with
  | [] => ret []
  | x :: rest =>
      y <- body x ;;
      ys <- mapM body rest ;;
      ret (y :: ys)
  end.

Definition for_range {S B} (n : nat) (body : nat -> M S B) : M S (list B) :=
  mapM body (seq 0 n).

Module GenerateContentData.

(** What the generator did, in order: a kind drawn at random, a leaf or a
    topic created, children attached to a topic. *)
Inductive gen_event : Type :=
  | KindDrawn
  | LeafGenerated (kind : string)
  | TopicGenerated (title : string)
  | ChildrenAdded (count : nat).

Definition is_draw (e : gen_event) : bool :=
  match e with KindDrawn => true | _ => false end.
Definition is_leaf (e : gen_event) : bool :=
  match e with LeafGenerated _ => true | _ => false end.
Definition is_topic (e : gen_event) : bool :=
  match e with TopicGenerated _ => true | _ => false end.

Definition count (p : gen_event -> bool) (l : list gen_event) : nat :=
  length (List.filter p l).

Section Choices.

(** The state of the random generator, and [random.choice]. *)
Variable rng : Type.
Variable A : Type.
Variable random_choice : list A -> M rng A.

(** [choices(sequence, k)] *)
Definition choices (sequence : list A) (k : Z) : M rng (list A) :=
  for_range (Z.to_nat k) (fun _ => random_choice sequence).

End Choices.

Section Generate.

(** The database together with the random generator, and the nodes in it. *)
Variable db : Type.
Variable node : Type.

(** The kinds [random.choice] draws from, [random.choice] itself, and the
    three things the tree builder does to the database: [generate_leaf],
    [generate_topic] and [node.children.add].  They are taken as
    given; the tree builder below is proved for whatever they do. *)
Variable ALL_RESOURCES_KINDS : list string.
Variable random_choice : list string -> M db string.
Variable generate_leaf_db : node -> string -> string -> M db node.
Variable generate_topic_db : node -> string -> string -> M db node.
Variable children_add_db : node -> list node -> M db unit.

(** The database and the record of what the generator did to it. *)
Record gen : Type := mkGen {
  g_db : db;
  g_events : list gen_event;
}.

Definition traced {A} (e : gen_event) (m : M db A) : M gen A :=
  fun g =>
    let '(r, d) := m (g_db g) in
    (r, {| g_db := d; g_events := (g_events g ++ [e])%list |}).

(** [generate_leaf(parent=..., channel_id=..., resource_kind=...)] *)
Definition generate_leaf (parent : node) (resource_kind channel_id : string)
    : M gen node :=
  traced (LeafGenerated resource_kind)
    (generate_leaf_db parent resource_kind channel_id).

(** [generate_topic(parent=..., channel_id=..., title=...)] *)
Definition generate_topic (parent : node) (title channel_id : string)
    : M gen node :=
  traced (TopicGenerated title) (generate_topic_db parent title channel_id).

(** [node.children.add] on the nodes of [children] *)
Definition children_add (n : node) (children : list node) : M gen unit :=
  traced (ChildrenAdded (length children)) (children_add_db n children).

(** [resources_kind if resources_kind else random.choice(ALL_RESOURCES_KINDS)] *)
Definition resource_kind_or_random (resources_kind : option string) : M gen string :=
  match resources_kind with
  | Some kind =>
      if String.eqb kind "" then traced KindDrawn (random_choice ALL_RESOURCES_KINDS)
      else ret kind
  | None => traced KindDrawn (random_choice ALL_RESOURCES_KINDS)
  end.

(** [recurse_and_generate]; [levels] and [n_children] are counts (the
    command line admits 1 to 9 for both). *)
Fixpoint recurse_and_generate (channel_id : string) (parent : node)
    (levels n_children : nat) (resources_kind : option string)
    : M gen (list node) :=
  for_range n_children (fun i =>
    match levels with
    | 0 =>
        kind <- resource_kind_or_random resources_kind ;;
        generate_leaf parent kind channel_id
    | S lower =>
        n <- generate_topic parent
               ("Level_" ++ pretty.pretty levels ++ " Topic_" ++ pretty.pretty (i + 1))
               channel_id ;;
        children <- recurse_and_generate channel_id parent lower n_children
                      resources_kind ;;
        children_add n children ;;
        ret n
    end).

End Generate.

(** A computation of the generator that, from any state, returns a value
    satisfying [R] after recording [cl] leaves, [ct] topics and [cd] draws,
    every recorded step satisfying [Q]. *)
Definition emits {db A} (Q : gen_event -> Prop) (cl ct cd : nat)
    (R : A -> Prop) (m : M (gen db) A) : Prop :=
  forall g, exists a g' new,
    m g = (Ok a, g') /\
    R a /\
    g_events db g' = (g_events db g ++ new)%list /\
    count is_leaf new = cl /\
    count is_topic new = ct /\
    count is_draw new = cd /\
    Forall Q new.

(** The kind the leaves are given when [resources_kind] is usable. *)
Definition fixed_kind (resources_kind : option string) : option string :=
  match resources_kind with
  | Some kind => if String.eqb kind "" then None else Some kind
  | None => None
  end.

(** A leaf costs one draw unless its kind is fixed. *)
Definition draws_per_leaf (resources_kind : option string) : nat :=
  match fixed_kind resources_kind with Some _ => 0 | None => 1 end.

(** What each recorded step looks like for a tree of [n_children] per
    node: children are attached [n_children] at a time, leaves have the
    fixed kind if there is one, and kinds are drawn only if there is none. *)
Definition regular_event (n_children : nat) (resources_kind : option string)
    (e : gen_event) : Prop :=
  match e with
  | KindDrawn => fixed_kind resources_kind = None
  | LeafGenerated kind =>
      match fixed_kind resources_kind with
      | Some k => kind = k
      | None => True
      end
  | TopicGenerated _ => True
  | ChildrenAdded c => c = n_children
  end.

(** A database that numbers its nodes and a generator that always draws
    the first kind. *)
Definition counter_create (parent : nat) (label channel_id : string) : M nat nat :=
  fun next => (Ok next, S next).

Definition counter_add (n : nat) (children : list nat) : M nat unit := ret tt.

Definition first_choice (l : list string) : M nat string :=
  match l with
  | x :: _ => ret x
  | [] => raise KeyError
  end.

Definition sample_kinds : list string := ["video"; "audio"; "exercise"].

Definition fresh_gen : gen nat := {| g_db := 1; g_events := [] |}.

End GenerateContentData.
(** * Properties *)

(** ** The job summary *)

Lemma dict_update_lookup (d other : pydict) (k : string) :
  dict_update d other !! k =
    match other !! k with
    | Some v => Some v
    | None => d !! k
    end.
Proof.
  unfold dict_update. rewrite lookup_union.
  destruct (other !! k), (d !! k); reflexivity.
Qed.

Lemma job_output_status j : job_output j !! "status" = Some (VState (state j)).
Proof. reflexivity. Qed.

Lemma job_output_exception j :
  job_output j !! "exception" = Some (VStr (py_str (exception j))).
Proof. reflexivity. Qed.

Lemma job_output_traceback j :
  job_output j !! "traceback" = Some (VStr (py_str (traceback j))).
Proof. reflexivity. Qed.

Lemma job_output_percentage j :
  job_output j !! "percentage" = Some (VFloat (percentage_progress j)).
Proof. reflexivity. Qed.

Lemma job_output_id j : job_output j !! "id" = Some (VStr (job_id j)).
Proof. reflexivity. Qed.

Lemma job_output_cancellable j :
  job_output j !! "cancellable" = Some (VBool (cancellable j)).
Proof. reflexivity. Qed.

(** C1 as stated fails: the summary of [clash_job] reports neither the
    job's id nor its state, because the metadata merge overwrote both. *)
Lemma job_to_response_id_state_overwritten :
  _job_to_response (Some clash_job) !! "id" = Some (VStr "channel-7") /\
  _job_to_response (Some clash_job) !! "id" <> Some (VStr (job_id clash_job)) /\
  _job_to_response (Some clash_job) !! "status" = Some (VStr "fresh") /\
  _job_to_response (Some clash_job) !! "status" <> Some (VState (state clash_job)).
Proof. vm_compute. repeat split; congruence. Qed.

(** C1 (amended): the summary of a job carries every entry of
    [extra_metadata] verbatim, and under each of the keys [status],
    [exception], [traceback], [percentage], [id] and [cancellable] that the
    metadata does not use it carries the job's own value (exception and
    traceback through [str]). *)
Theorem job_to_response_own_values_and_metadata (j : Job) :
  (forall k v, extra_metadata j !! k = Some v ->
     _job_to_response (Some j) !! k = Some v) /\
  (extra_metadata j !! "status" = None ->
     _job_to_response (Some j) !! "status" = Some (VState (state j))) /\
  (extra_metadata j !! "exception" = None ->
     _job_to_response (Some j) !! "exception" = Some (VStr (py_str (exception j)))) /\
  (extra_metadata j !! "traceback" = None ->
     _job_to_response (Some j) !! "traceback" = Some (VStr (py_str (traceback j)))) /\
  (extra_metadata j !! "percentage" = None ->
     _job_to_response (Some j) !! "percentage" = Some (VFloat (percentage_progress j))) /\
  (extra_metadata j !! "id" = None ->
     _job_to_response (Some j) !! "id" = Some (VStr (job_id j))) /\
  (extra_metadata j !! "cancellable" = None ->
     _job_to_response (Some j) !! "cancellable" = Some (VBool (cancellable j))).
Proof.
  cbn [_job_to_response].
  split; [intros k v Hk; rewrite dict_update_lookup, Hk; reflexivity |].
  repeat split; intros Hk; rewrite dict_update_lookup, Hk.
  - apply job_output_status.
  - apply job_output_exception.
  - apply job_output_traceback.
  - apply job_output_percentage.
  - apply job_output_id.
  - apply job_output_cancellable.
Qed.

Lemma job_to_response_own_values_and_metadata_witness :
  _job_to_response (Some plain_job) !! "type" = Some (VStr "EXPORTSUMMARYLOGCSV") /\
  _job_to_response (Some plain_job) !! "status" = Some (VState RUNNING) /\
  _job_to_response (Some plain_job) !! "id" = Some (VStr "a1").
Proof.
  pose proof (job_to_response_own_values_and_metadata plain_job)
    as (Hmeta & Hstatus & _ & _ & _ & Hid & _).
  split; [apply (Hmeta "type"); reflexivity |].
  split; [apply Hstatus; reflexivity | apply Hid; reflexivity].
Defined.

(** C8: applied to [None], [_job_to_response] returns the fixed placeholder:
    status [SCHEDULED], percentage [0], id [None], cancellable [False], an
    empty progress list, type and started_by [None], and nothing else. *)
Theorem job_to_response_none_placeholder :
  _job_to_response None !! "status" = Some (VState SCHEDULED) /\
  _job_to_response None !! "percentage" = Some (VInt 0) /\
  _job_to_response None !! "id" = Some VNone /\
  _job_to_response None !! "cancellable" = Some (VBool false) /\
  _job_to_response None !! "progress" = Some (VList []) /\
  _job_to_response None !! "type" = Some VNone /\
  _job_to_response None !! "started_by" = Some VNone /\
  dom (_job_to_response None) =
    list_to_set ["type"; "started_by"; "status"; "percentage"; "progress";
                 "id"; "cancellable"].
Proof.
  repeat split; reflexivity.
Qed.

(** ** The queue *)

Module QueueFacts.
Import Queue.

Lemma set_jobs_same f q : f (q_jobs q) = q_jobs q -> set_jobs f q = q.
Proof. destruct q as [m i r]. unfold set_jobs. simpl. intros ->. reflexivity. Qed.

Lemma set_jobs_jobs f q : q_jobs (set_jobs f q) = f (q_jobs q).
Proof. reflexivity. Qed.

Lemma cancel_job_terminal : fixes_terminal cancel_job.
Proof.
  intros j Ht. unfold cancel_job. rewrite Ht. destruct (cancellable j); reflexivity.
Qed.

Lemma progress_job_terminal f : fixes_terminal (progress_job f).
Proof.
  intros j Ht. unfold progress_job.
  destruct (track_progress j); [| reflexivity].
  destruct (state j); try reflexivity; discriminate Ht.
Qed.

Lemma accept_job_terminal : fixes_terminal accept_job.
Proof.
  intros j Ht. unfold accept_job. destruct (state j); try reflexivity; discriminate Ht.
Qed.

Lemma claim_job_terminal : fixes_terminal claim_job.
Proof.
  intros j Ht. unfold claim_job. destruct (state j); try reflexivity; discriminate Ht.
Qed.

Lemma finish_job_terminal o : fixes_terminal (finish_job o).
Proof.
  intros j Ht. unfold finish_job.
  destruct (state j); try discriminate Ht; destruct o; reflexivity.
Qed.

Lemma cancel_job_not_cancellable j : cancellable j = false -> cancel_job j = j.
Proof. intros Hc. unfold cancel_job. rewrite Hc. reflexivity. Qed.

(** Rewriting one record in place with a transformer that fixes [j] leaves
    the record stored under [id] alone. *)
Lemma insert_fixed_lookup (m : gmap string Job) f id0 j0 id j :
  m !! id0 = Some j0 -> m !! id = Some j -> f j = j ->
  <[id0 := f j0]> m !! id = Some j.
Proof.
  intros H0 Hid Hf. destruct (decide (id0 = id)) as [-> | Hne].
  - rewrite lookup_insert_eq. congruence.
  - rewrite lookup_insert_ne by exact Hne. exact Hid.
Qed.

Lemma on_job_fixed f id0 q id j :
  q_jobs q !! id = Some j -> f j = j ->
  q_jobs (snd (on_job f id0 q)) !! id = Some j.
Proof.
  intros Hid Hf. unfold on_job.
  destruct (q_jobs q !! id0) as [j0 |] eqn:H0; simpl; [| exact Hid].
  eapply insert_fixed_lookup; eassumption.
Qed.

Lemma cancel_same id q j :
  q_jobs q !! id = Some j -> cancel_job j = j -> cancel id q = (Ok tt, q).
Proof.
  intros Hid Hj. unfold cancel. rewrite Hid, Hj.
  f_equal. apply set_jobs_same, insert_id, Hid.
Qed.

Lemma update_progress_same id f q j :
  q_jobs q !! id = Some j -> progress_job f j = j ->
  update_progress id f q = (Ok tt, q).
Proof.
  intros Hid Hj. unfold update_progress. rewrite Hid, Hj.
  f_equal. apply set_jobs_same, insert_id, Hid.
Qed.

Lemma fetch_job_present id q j :
  q_jobs q !! id = Some j -> fetch_job id q = (Ok j, q).
Proof. intros H. unfold fetch_job. rewrite H. reflexivity. Qed.

Lemma fetch_job_absent id q :
  q_jobs q !! id = None -> fetch_job id q = (Raise JobNotFound, q).
Proof. intros H. unfold fetch_job. rewrite H. reflexivity. Qed.

Lemma cancel_absent id q :
  q_jobs q !! id = None -> cancel id q = (Raise JobNotFound, q).
Proof. intros H. unfold cancel. rewrite H. reflexivity. Qed.

Lemma clear_job_terminal id q j :
  q_jobs q !! id = Some j -> terminal (state j) = true ->
  clear_job id q = (Ok tt, set_jobs (delete id) q).
Proof. intros H Ht. unfold clear_job. rewrite H, Ht. reflexivity. Qed.

Lemma clear_job_transient id q j :
  q_jobs q !! id = Some j -> terminal (state j) = false ->
  clear_job id q = (Ok tt, q).
Proof. intros H Ht. unfold clear_job. rewrite H, Ht. reflexivity. Qed.

(** *** Well-formed queues *)

Lemma wf_new registry : wf (new_queue registry).
Proof. intros id j H. simpl in H. rewrite lookup_empty in H. discriminate. Qed.

Lemma wf_rewrite f id0 j0 q :
  wf q -> q_jobs q !! id0 = Some j0 -> job_id (f j0) = job_id j0 ->
  wf (set_jobs (<[id0 := f j0]>) q).
Proof.
  intros Hwf H0 Hf id j. simpl.
  destruct (decide (id0 = id)) as [-> | Hne].
  - rewrite lookup_insert_eq. intros [= <-].
    destruct (Hwf _ _ H0) as [Hid Hin]. split; [congruence | exact Hin].
  - rewrite lookup_insert_ne by exact Hne. apply Hwf.
Qed.

Lemma wf_on_job f id0 q :
  (forall j, job_id (f j) = job_id j) -> wf q -> wf (snd (on_job f id0 q)).
Proof.
  intros Hf Hwf. unfold on_job.
  destruct (q_jobs q !! id0) as [j0 |] eqn:H0; simpl; [| exact Hwf].
  apply wf_rewrite; auto.
Qed.

Lemma cancel_job_id j : job_id (cancel_job j) = job_id j.
Proof.
  unfold cancel_job. destruct (cancellable j), (terminal (state j)); reflexivity.
Qed.

Lemma progress_job_id f j : job_id (progress_job f j) = job_id j.
Proof.
  unfold progress_job. destruct (track_progress j), (state j); reflexivity.
Qed.

Lemma accept_job_id j : job_id (accept_job j) = job_id j.
Proof. unfold accept_job. destruct (state j); reflexivity. Qed.

Lemma claim_job_id j : job_id (claim_job j) = job_id j.
Proof. unfold claim_job. destruct (state j); reflexivity. Qed.

Lemma finish_job_id o j : job_id (finish_job o j) = job_id j.
Proof.
  unfold finish_job. destruct (state j), o; try reflexivity;
    destruct (track_progress j); reflexivity.
Qed.

Lemma wf_sub (f : gmap string Job -> gmap string Job) q :
  (forall m, f m ⊆ m) -> wf q -> wf (set_jobs f q).
Proof.
  intros Hf Hwf id j H. simpl in H. apply Hwf.
  eapply lookup_weaken; [exact H | apply Hf].
Qed.

Lemma wf_enqueue fn a kw can track extra q :
  wf q -> wf (snd (enqueue fn a kw can track extra q)).
Proof.
  intros Hwf. unfold enqueue.
  destruct (decide (fn ∈ q_registry q)); simpl; [| exact Hwf].
  intros id j. simpl.
  destruct (decide (fresh (q_issued q) = id)) as [<- | Hne].
  - rewrite lookup_insert_eq. intros [= <-]. simpl. split; [reflexivity | set_solver].
  - rewrite lookup_insert_ne by exact Hne. intros H.
    destruct (Hwf _ _ H) as [Hid Hin]. split; [exact Hid | set_solver].
Qed.

Lemma wf_run o q : wf q -> wf (run o q).
Proof.
  intros Hwf. destruct o; simpl.
  - apply wf_enqueue, Hwf.
  - unfold fetch_job. destruct (q_jobs q !! id); exact Hwf.
  - unfold cancel. destruct (q_jobs q !! id) as [j |] eqn:Hid; simpl; [| exact Hwf].
    apply wf_rewrite; auto using cancel_job_id.
  - unfold clear_job. destruct (q_jobs q !! id) as [j |] eqn:Hid; simpl; [| exact Hwf].
    destruct (terminal (state j)); simpl; [| exact Hwf].
    apply wf_sub; [| exact Hwf]. intros m. apply delete_subseteq.
  - apply wf_sub; [| exact Hwf]. intros m. apply map_filter_subseteq.
  - intros id j. simpl. rewrite lookup_fmap.
    destruct (q_jobs q !! id) as [j0 |] eqn:Hid; simpl; [| discriminate].
    intros [= <-]. rewrite cancel_job_id. apply Hwf, Hid.
  - unfold update_progress.
    destruct (q_jobs q !! id) as [j |] eqn:Hid; simpl; [| exact Hwf].
    apply wf_rewrite; auto using progress_job_id.
  - unfold check_for_cancel.
    destruct (q_jobs q !! id) as [j |]; [destruct (state j) |]; exact Hwf.
  - apply wf_on_job; auto using accept_job_id.
  - apply wf_on_job; auto using claim_job_id.
  - apply wf_on_job; auto using finish_job_id.
Qed.

Lemma reachable_wf q : reachable q -> wf q.
Proof. induction 1; [apply wf_new | apply wf_run; assumption]. Qed.

(** The identifier [enqueue] hands out belongs to no stored record. *)
Lemma fresh_not_stored q id j :
  wf q -> q_jobs q !! id = Some j -> fresh (q_issued q) <> id.
Proof.
  intros Hwf Hid Heq. destruct (Hwf _ _ Hid) as [_ Hin].
  rewrite <- Heq in Hin. exact (is_fresh (q_issued q) Hin).
Qed.

(** A terminal record is either still there, unchanged, or has been cleared. *)
Lemma run_terminal_fixed o q id j j' :
  wf q -> q_jobs q !! id = Some j -> terminal (state j) = true ->
  q_jobs (run o q) !! id = Some j' -> j' = j.
Proof.
  intros Hwf Hid Ht. destruct o; simpl.
  - unfold enqueue. destruct (decide (fn ∈ q_registry q)); simpl.
    + rewrite lookup_insert_ne by (eapply fresh_not_stored; eassumption). congruence.
    + congruence.
  - unfold fetch_job. destruct (q_jobs q !! id0); simpl; congruence.
  - unfold cancel. destruct (q_jobs q !! id0) as [j0 |] eqn:H0; simpl; [| congruence].
    rewrite (insert_fixed_lookup _ cancel_job _ _ _ _ H0 Hid (cancel_job_terminal _ Ht)).
    congruence.
  - unfold clear_job. destruct (q_jobs q !! id0) as [j0 |] eqn:H0; simpl; [| congruence].
    destruct (terminal (state j0)); simpl; [| congruence].
    intros H. apply lookup_delete_Some in H as [_ H]. congruence.
  - intros H. apply map_lookup_filter_Some in H as [H _]. congruence.
  - rewrite lookup_fmap, Hid. simpl. rewrite cancel_job_terminal by exact Ht. congruence.
  - unfold update_progress.
    destruct (q_jobs q !! id0) as [j0 |] eqn:H0; simpl; [| congruence].
    rewrite (insert_fixed_lookup _ (progress_job f) _ _ _ _ H0 Hid
               (progress_job_terminal _ _ Ht)).
    congruence.
  - unfold check_for_cancel.
    destruct (q_jobs q !! id0) as [j0 |]; [destruct (state j0) |]; simpl; congruence.
  - unfold accept.
    rewrite (on_job_fixed _ _ _ _ _ Hid (accept_job_terminal _ Ht)). congruence.
  - unfold claim.
    rewrite (on_job_fixed _ _ _ _ _ Hid (claim_job_terminal _ Ht)). congruence.
  - unfold finish.
    rewrite (on_job_fixed _ _ _ _ _ Hid (finish_job_terminal _ _ Ht)). congruence.
Qed.

End QueueFacts.

(** ** The endpoints, step by step *)

Section EndpointSteps.
Import Queue.

Lemma queue_fetch_job_run pk w :
  queue_fetch_job pk w =
    (fst (fetch_job pk (w_queue w)),
     logged (CallFetchJob pk) (snd (fetch_job pk (w_queue w))) w).
Proof.
  unfold queue_fetch_job, bind, log_call, modify, on_queue, logged. simpl.
  destruct (fetch_job pk (w_queue w)); reflexivity.
Qed.

Lemma queue_cancel_run id w :
  queue_cancel (VStr id) w =
    (fst (cancel id (w_queue w)),
     logged (CallCancel (VStr id)) (snd (cancel id (w_queue w))) w).
Proof.
  unfold queue_cancel, bind, log_call, modify, on_queue, logged. simpl.
  destruct (cancel id (w_queue w)); reflexivity.
Qed.

Lemma queue_clear_job_run id w :
  queue_clear_job (VStr id) w =
    (fst (clear_job id (w_queue w)),
     logged (CallClearJob (VStr id)) (snd (clear_job id (w_queue w))) w).
Proof.
  unfold queue_clear_job, bind, log_call, modify, on_queue, logged. simpl.
  destruct (clear_job id (w_queue w)); reflexivity.
Qed.

(** [queue.cancel] returns or raises [JobNotFound], nothing else. *)
Lemma cancel_outcome id q :
  fst (cancel id q) = Ok tt \/ fst (cancel id q) = Raise JobNotFound.
Proof. unfold cancel. destruct (q_jobs q !! id); simpl; auto. Qed.

(** With a string [task_id] the cancel endpoint always answers [{}], after
    one call of [queue.cancel]. *)
Lemma canceltask_string request id w :
  data request !! "task_id" = Some (VStr id) ->
  TasksViewSet.canceltask request w =
    (Ok (respond ∅),
     logged (CallCancel (VStr id)) (snd (cancel id (w_queue w))) w).
Proof.
  intros Hd. unfold TasksViewSet.canceltask. rewrite Hd. simpl.
  unfold bind, try_except. rewrite queue_cancel_run.
  destruct (cancel_outcome id (w_queue w)) as [-> | ->]; reflexivity.
Qed.

Lemma retrieve_run pk w :
  TasksViewSet.retrieve pk w =
    (match q_jobs (w_queue w) !! pk with
     | Some j => Ok (respond (_job_to_response (Some j)))
     | None => Raise (Http404 ("Task with " ++ pk ++ " not found"))
     end,
     logged (CallFetchJob pk) (w_queue w) w).
Proof.
  unfold TasksViewSet.retrieve, try_except, bind. rewrite queue_fetch_job_run.
  unfold fetch_job. destruct (q_jobs (w_queue w) !! pk); reflexivity.
Qed.

End EndpointSteps.

(** ** Claims about the queue *)

Section QueueClaims.
Import Queue QueueFacts.

Lemma enqueue_registered fn a kw can track extra q :
  fn ∈ q_registry q ->
  exists id q', enqueue fn a kw can track extra q = (Ok id, q').
Proof.
  intros Hin. unfold enqueue. destruct (decide (fn ∈ q_registry q)); [| contradiction].
  eauto.
Qed.

(** C4: whenever [enqueue] returns a job id, [fetch_job] on that id right
    after it returns the record of that job, whose state is [SCHEDULED] or
    [QUEUED] and whose [percentage_progress] is [0.0]. *)
Theorem fetch_job_after_enqueue fn a kw can track extra q id q' :
  enqueue fn a kw can track extra q = (Ok id, q') ->
  exists j,
    fetch_job id q' = (Ok j, q') /\
    job_id j = id /\
    (state j = SCHEDULED \/ state j = QUEUED) /\
    percentage_progress j = 0%Q.
Proof.
  unfold enqueue. destruct (decide (fn ∈ q_registry q)); [| discriminate].
  intros [= <- <-]. eexists. split.
  - apply fetch_job_present. simpl. apply lookup_insert_eq.
  - simpl. auto.
Qed.

Lemma fetch_job_after_enqueue_witness :
  exists j,
    fetch_job "0" export_queue = (Ok j, export_queue) /\
    job_id j = "0" /\
    (state j = SCHEDULED \/ state j = QUEUED) /\
    percentage_progress j = 0%Q.
Proof.
  apply (fetch_job_after_enqueue "_localexport" [VStr "c1"; VStr "d1"] ∅ true true
           (<["type" := VStr "DISKEXPORT"]> ∅) (new_queue sample_registry)).
  reflexivity.
Defined.

(** C5: a cancel request against a job whose [cancellable] flag is false
    changes nothing: [queue.cancel] returns with the queue as it was, the
    record fetched afterwards is the one stored before, and the cancel
    endpoint leaves the queue as it was. *)
Theorem cancel_not_cancellable_is_noop q calls request id j :
  q_jobs q !! id = Some j ->
  cancellable j = false ->
  data request !! "task_id" = Some (VStr id) ->
  cancel id q = (Ok tt, q) /\
  fetch_job id (snd (cancel id q)) = (Ok j, q) /\
  TasksViewSet.canceltask request {| w_queue := q; w_calls := calls |} =
    (Ok (respond ∅),
     {| w_queue := q; w_calls := (calls ++ [CallCancel (VStr id)])%list |}).
Proof.
  intros Hid Hc Hd.
  assert (Hsame : cancel id q = (Ok tt, q))
    by (eapply cancel_same; [exact Hid | apply cancel_job_not_cancellable, Hc]).
  split; [exact Hsame |]. split.
  - rewrite Hsame. simpl. apply fetch_job_present, Hid.
  - rewrite (canceltask_string _ id) by exact Hd. simpl. rewrite Hsame. reflexivity.
Qed.

(** C6: a job in a terminal state stays as it is: a cancel request and a
    progress update against it return normally with the queue unchanged,
    and after any operation of the facade, the callbacks or the worker
    pool the record stored under its id, if still there, is the same. *)
Theorem terminal_job_never_changes q id j :
  wf q ->
  q_jobs q !! id = Some j ->
  terminal (state j) = true ->
  cancel id q = (Ok tt, q) /\
  (forall f, update_progress id f q = (Ok tt, q)) /\
  (forall o j', q_jobs (run o q) !! id = Some j' -> j' = j).
Proof.
  intros Hwf Hid Ht. split; [| split].
  - eapply cancel_same; [exact Hid | apply cancel_job_terminal, Ht].
  - intros f. eapply update_progress_same; [exact Hid | apply progress_job_terminal, Ht].
  - intros o j'. apply run_terminal_fixed; assumption.
Qed.

(** C7: [clear_job] on a stored job returns normally; it removes the
    record exactly when the job is terminal, after which [fetch_job]
    raises [JobNotFound]; a non-terminal job is left intact and still
    fetched; no other record is touched; and the clear endpoint does the
    same and echoes the task id. *)
Theorem clear_job_removes_exactly_terminal q calls request id j :
  q_jobs q !! id = Some j ->
  id <> "" ->
  data request !! "task_id" = Some (VStr id) ->
  fst (clear_job id q) = Ok tt /\
  (terminal (state j) = true ->
     q_jobs (snd (clear_job id q)) !! id = None /\
     fst (fetch_job id (snd (clear_job id q))) = Raise JobNotFound) /\
  (terminal (state j) = false ->
     snd (clear_job id q) = q /\
     fetch_job id (snd (clear_job id q)) = (Ok j, q)) /\
  (forall id', id' <> id ->
     q_jobs (snd (clear_job id q)) !! id' = q_jobs q !! id') /\
  TasksViewSet.cleartask request {| w_queue := q; w_calls := calls |} =
    (Ok (respond (<["task_id" := VStr id]> ∅)),
     {| w_queue := snd (clear_job id q);
        w_calls := (calls ++ [CallClearJob (VStr id)])%list |}).
Proof.
  intros Hid Hne Hd. destruct (terminal (state j)) eqn:Ht.
  - rewrite (clear_job_terminal _ _ _ Hid Ht). simpl.
    assert (Hgone : delete id (q_jobs q) !! id = None) by apply lookup_delete_eq.
    split; [reflexivity |]. split; [| split; [discriminate | split]].
    + intros _. split; [exact Hgone |].
      rewrite fetch_job_absent by exact Hgone. reflexivity.
    + intros id' Hid'. apply lookup_delete_ne. congruence.
    + unfold TasksViewSet.cleartask, dict_get. rewrite Hd. simpl.
      destruct (String.eqb_spec id ""); [contradiction |]. simpl.
      unfold bind. rewrite queue_clear_job_run. simpl.
      rewrite (clear_job_terminal _ _ _ Hid Ht). reflexivity.
  - rewrite (clear_job_transient _ _ _ Hid Ht). simpl.
    split; [reflexivity |]. split; [discriminate | split; [| split]].
    + intros _. split; [reflexivity | apply fetch_job_present, Hid].
    + reflexivity.
    + unfold TasksViewSet.cleartask, dict_get. rewrite Hd. simpl.
      destruct (String.eqb_spec id ""); [contradiction |]. simpl.
      unfold bind. rewrite queue_clear_job_run. simpl.
      rewrite (clear_job_transient _ _ _ Hid Ht). reflexivity.
Qed.

Lemma cancel_not_cancellable_is_noop_witness :
  cancel "0" sync_queue = (Ok tt, sync_queue) /\
  TasksViewSet.canceltask (task_request (VStr "0"))
      {| w_queue := sync_queue; w_calls := [] |} =
    (Ok (respond ∅),
     {| w_queue := sync_queue; w_calls := [CallCancel (VStr "0")] |}).
Proof.
  edestruct (cancel_not_cancellable_is_noop sync_queue [] (task_request (VStr "0")) "0")
    as (Hcancel & _ & Hview).
  - vm_compute. reflexivity.
  - reflexivity.
  - reflexivity.
  - split; [exact Hcancel | exact Hview].
Defined.

Lemma terminal_job_never_changes_witness :
  cancel "0" done_queue = (Ok tt, done_queue) /\
  update_progress "0" (1 # 2) done_queue = (Ok tt, done_queue) /\
  (forall j', q_jobs (run OpEmpty done_queue) !! "0" = Some j' ->
     state j' = COMPLETED).
Proof.
  edestruct (terminal_job_never_changes done_queue "0") as (Hcancel & Hupd & Hrun).
  - unfold done_queue, export_queue. repeat apply wf_run. apply wf_new.
  - vm_compute. reflexivity.
  - reflexivity.
  - split; [exact Hcancel |]. split; [apply Hupd |].
    intros j' Hj'. rewrite (Hrun _ _ Hj'). reflexivity.
Defined.

Lemma clear_job_removes_exactly_terminal_witness :
  fst (clear_job "0" done_queue) = Ok tt /\
  fst (fetch_job "0" (snd (clear_job "0" done_queue))) = Raise JobNotFound /\
  snd (clear_job "0" export_queue) = export_queue.
Proof.
  edestruct (clear_job_removes_exactly_terminal done_queue []
               (task_request (VStr "0")) "0") as (Hok & Hterm & _).
  - vm_compute. reflexivity.
  - discriminate.
  - reflexivity.
  - edestruct (clear_job_removes_exactly_terminal export_queue []
                 (task_request (VStr "0")) "0") as (_ & _ & Htrans & _).
    + vm_compute. reflexivity.
    + discriminate.
    + reflexivity.
    + split; [exact Hok |]. split.
      * apply Hterm. reflexivity.
      * apply Htrans. reflexivity.
Defined.

End QueueClaims.

(** ** Claims about the endpoints *)

Section EndpointClaims.
Import Queue QueueFacts.

Lemma reports_not_found_absent pk w :
  q_jobs (w_queue w) !! pk = None -> reports_not_found pk w.
Proof.
  intros Hpk. unfold reports_not_found. rewrite retrieve_run, Hpk. simpl.
  split; [apply fetch_job_absent, Hpk | split; reflexivity].
Qed.

(** C2 as stated fails: for the id ["missing"], absent from the queue,
    [queue.cancel] raises [JobNotFound], yet the cancel endpoint answers
    with the empty success response, status 200, not with a not-found
    response. *)
Lemma canceltask_missing_answers_200 :
  let w := {| w_queue := export_queue; w_calls := [] |} in
  let r := fst (TasksViewSet.canceltask (task_request (VStr "missing")) w) in
  fst (cancel "missing" export_queue) = Raise JobNotFound /\
  r = Ok (respond ∅) /\
  http_status r = 200%Z /\
  http_status r <> 404%Z.
Proof. vm_compute. repeat split; congruence. Qed.

(** C2 (amended): for a cancel request whose job id is absent from
    storage, [queue.cancel] raises [JobNotFound] and the cancel endpoint
    swallows it: the endpoint answers with the empty success response
    (status 200), having called [queue.cancel] once, and the queue is
    unchanged. *)
Theorem canceltask_absent_job_swallowed q calls request id :
  q_jobs q !! id = None ->
  data request !! "task_id" = Some (VStr id) ->
  cancel id q = (Raise JobNotFound, q) /\
  TasksViewSet.canceltask request {| w_queue := q; w_calls := calls |} =
    (Ok (respond ∅),
     {| w_queue := q; w_calls := (calls ++ [CallCancel (VStr id)])%list |}) /\
  http_status
    (fst (TasksViewSet.canceltask request {| w_queue := q; w_calls := calls |}))
    = 200%Z.
Proof.
  intros Hid Hd. pose proof (cancel_absent _ _ Hid) as Hc.
  split; [exact Hc |].
  rewrite (canceltask_string _ id) by exact Hd. simpl. rewrite Hc.
  split; reflexivity.
Qed.

Lemma canceltask_absent_job_swallowed_witness :
  cancel "missing" export_queue = (Raise JobNotFound, export_queue) /\
  TasksViewSet.canceltask (task_request (VStr "missing"))
      {| w_queue := export_queue; w_calls := [] |} =
    (Ok (respond ∅),
     {| w_queue := export_queue; w_calls := [CallCancel (VStr "missing")] |}).
Proof.
  destruct (canceltask_absent_job_swallowed export_queue []
              (task_request (VStr "missing")) "missing") as (Hc & Hview & _).
  - vm_compute. reflexivity.
  - reflexivity.
  - split; [exact Hc | exact Hview].
Defined.

(** C3: when no record exists under the id, [fetch_job] raises
    [JobNotFound] and the retrieve endpoint turns it into a 404 whose
    message names the id; the same holds for the id of a terminal job
    once [clear_job] has cleared it. *)
Theorem retrieve_missing_job_is_404 q calls pk :
  (q_jobs q !! pk = None ->
     reports_not_found pk {| w_queue := q; w_calls := calls |}) /\
  (forall j, q_jobs q !! pk = Some j -> terminal (state j) = true ->
     reports_not_found pk
       {| w_queue := snd (clear_job pk q); w_calls := calls |}).
Proof.
  split.
  - intros Hpk. apply reports_not_found_absent. exact Hpk.
  - intros j Hpk Ht. apply reports_not_found_absent. simpl.
    rewrite (clear_job_terminal _ _ _ Hpk Ht). simpl. apply lookup_delete_eq.
Qed.

Lemma retrieve_missing_job_is_404_witness :
  reports_not_found "7" {| w_queue := done_queue; w_calls := [] |} /\
  reports_not_found "0"
    {| w_queue := snd (clear_job "0" done_queue); w_calls := [] |}.
Proof.
  split.
  - apply (retrieve_missing_job_is_404 done_queue [] "7"). vm_compute. reflexivity.
  - eapply (retrieve_missing_job_is_404 done_queue [] "0").
    + vm_compute. reflexivity.
    + reflexivity.
Defined.

(** C10: the cancel endpoint raises a validation error, with the queue
    untouched and [queue.cancel] not called, when the body has no
    [task_id] or a [task_id] that is not a string; with a string
    [task_id] it calls [queue.cancel] exactly once, with that id, and
    returns the empty success response. *)
Theorem canceltask_validates_then_cancels_once request w :
  (data request !! "task_id" = None ->
     TasksViewSet.canceltask request w =
       (Raise (ValidationError "The 'task_id' field is required."), w)) /\
  (forall v, data request !! "task_id" = Some v -> is_string v = false ->
     TasksViewSet.canceltask request w =
       (Raise (ValidationError "The 'task_id' should be a string."), w)) /\
  (forall id, data request !! "task_id" = Some (VStr id) ->
     fst (TasksViewSet.canceltask request w) = Ok (respond ∅) /\
     http_status (fst (TasksViewSet.canceltask request w)) = 200%Z /\
     w_calls (snd (TasksViewSet.canceltask request w)) =
       (w_calls w ++ [CallCancel (VStr id)])%list /\
     w_queue (snd (TasksViewSet.canceltask request w)) =
       snd (cancel id (w_queue w))).
Proof.
  split; [| split].
  - intros Hd. unfold TasksViewSet.canceltask. rewrite Hd. reflexivity.
  - intros v Hd Hv. unfold TasksViewSet.canceltask. rewrite Hd, Hv. reflexivity.
  - intros id Hd. rewrite (canceltask_string _ id) by exact Hd.
    repeat split; reflexivity.
Qed.

Lemma canceltask_validates_then_cancels_once_witness :
  let w := {| w_queue := export_queue; w_calls := [] |} in
  fst (TasksViewSet.canceltask {| data := ∅ |} w) =
    Raise (ValidationError "The 'task_id' field is required.") /\
  TasksViewSet.canceltask (task_request (VInt 0)) w =
    (Raise (ValidationError "The 'task_id' should be a string."), w) /\
  w_calls (snd (TasksViewSet.canceltask (task_request (VStr "0")) w)) =
    [CallCancel (VStr "0")].
Proof.
  intros w.
  destruct (canceltask_validates_then_cancels_once {| data := ∅ |} w)
    as (Hmissing & _ & _).
  destruct (canceltask_validates_then_cancels_once (task_request (VInt 0)) w)
    as (_ & Hbad & _).
  destruct (canceltask_validates_then_cancels_once (task_request (VStr "0")) w)
    as (_ & _ & Hgood).
  split; [rewrite Hmissing; reflexivity |].
  split; [apply (Hbad (VInt 0)); reflexivity |].
  destruct (Hgood "0") as (_ & _ & Hcalls & _); [reflexivity | exact Hcalls].
Defined.

End EndpointClaims.

(** ** The cancelled disk export *)

Lemma os_remove_logged path w :
  syscalls (snd (os_remove path w)) = (syscalls w ++ [Remove path])%list.
Proof.
  unfold os_remove.
  destruct (decide (path ∈ files w ∧ path ∉ undeletable w)); reflexivity.
Qed.

Lemma os_remove_outcome path w :
  fst (os_remove path w) = Ok tt \/ fst (os_remove path w) = Raise OSError.
Proof.
  unfold os_remove.
  destruct (decide (path ∈ files w ∧ path ∉ undeletable w)); simpl; auto.
Qed.

(** Unless the operating system refuses, the file is gone after
    [os.remove], whether it was there or not. *)
Lemma os_remove_gone path w :
  path ∉ undeletable w -> path ∉ files (snd (os_remove path w)).
Proof.
  intros Hdel. unfold os_remove.
  destruct (decide (path ∈ files w ∧ path ∉ undeletable w)) as [H | H]; simpl.
  - rewrite elem_of_difference, elem_of_singleton. intros [_ Hne]. apply Hne. reflexivity.
  - intros Hin. apply H. split; assumption.
Qed.

Section LocalExportClaims.
Variable callback : Type.
Variable get_mounted_drive_by_id : string -> M fsworld Drive.
Variable call_command :
  string -> list pyval -> list (string * pyval) ->
  option callback -> option callback -> M fsworld unit.
Variable get_content_database_file_path : string -> string -> string.

(** C9: when the [exportcontent] step raises [UserCancelledError],
    [_localexport] makes one [os.remove] call on the channel's database
    file in the drive's data folder, swallows an [OSError] from it, and
    raises [UserCancelledError] again; unless the operating system
    refuses the removal, the file is not on the drive afterwards. *)
Theorem localexport_cancelled_removes_database
    channel_id drive_id update_progress check_for_cancel node_ids exclude_node_ids
    w drive w1 w2 w3 :
  get_mounted_drive_by_id drive_id w = (Ok drive, w1) ->
  call_command "exportchannel" [VStr channel_id; VStr (datafolder drive)] []
    update_progress check_for_cancel w1 = (Ok tt, w2) ->
  call_command "exportcontent" [VStr channel_id; VStr (datafolder drive)]
    [("node_ids", node_ids); ("exclude_node_ids", exclude_node_ids)]
    update_progress check_for_cancel w2 = (Raise UserCancelledError, w3) ->
  let path := get_content_database_file_path channel_id (datafolder drive) in
  let final :=
    snd (_localexport callback get_mounted_drive_by_id call_command
           get_content_database_file_path channel_id drive_id
           update_progress check_for_cancel node_ids exclude_node_ids w) in
  _localexport callback get_mounted_drive_by_id call_command
      get_content_database_file_path channel_id drive_id
      update_progress check_for_cancel node_ids exclude_node_ids w =
    (Raise UserCancelledError, snd (os_remove path w3)) /\
  syscalls final = (syscalls w3 ++ [Remove path])%list /\
  (path ∉ undeletable w3 -> path ∉ files final).
Proof.
  intros Hdrive Hchannel Hcontent path final.
  assert (Hrun :
    _localexport callback get_mounted_drive_by_id call_command
        get_content_database_file_path channel_id drive_id
        update_progress check_for_cancel node_ids exclude_node_ids w =
      (Raise UserCancelledError, snd (os_remove path w3))).
  { unfold _localexport, bind, try_except.
    rewrite Hdrive, Hchannel, Hcontent. simpl. fold path.
    destruct (os_remove_outcome path w3) as [Hr | Hr];
      destruct (os_remove path w3) as [r w4]; simpl in Hr; subst r; reflexivity. }
  subst final. rewrite Hrun. simpl.
  split; [reflexivity |]. split.
  - apply os_remove_logged.
  - apply os_remove_gone.
Qed.

End LocalExportClaims.

Lemma localexport_cancelled_removes_database_witness :
  let path := "/media/d1/content/databases/c1.sqlite3" in
  let run :=
    _localexport unit sample_drive sample_command sample_db_path
      "c1" "d1" None None VNone VNone empty_fs in
  fst run = Raise UserCancelledError /\
  syscalls (snd run) = [Remove path] /\
  path ∉ files (snd run).
Proof.
  intros path run.
  edestruct (localexport_cancelled_removes_database unit sample_drive
               sample_command sample_db_path "c1" "d1" None None VNone VNone
               empty_fs) as (Hrun & Hcalls & Hgone).
  - reflexivity.
  - reflexivity.
  - reflexivity.
  - subst run. split; [rewrite Hrun; reflexivity |].
    split; [exact Hcalls |].
    apply Hgone. simpl. apply not_elem_of_empty.
Defined.

(** * Further properties of the task API *)

(** ** Validation of task descriptions *)

Section ValidationFacts.
Context {S : Type}.
Variable channel_metadata_get : pyval -> lookup Channel.
Variable network_location_base_url : pyval -> lookup string.
Variable CENTRAL_CONTENT_BASE_URL : string.
Variable py_format : pyval -> string.
Variable get_mounted_drive_by_id : pyval -> M S Drive.

Local Abbreviation vct := (validate_content_task (S := S) channel_metadata_get).

(** The validators only read: whatever they answer, the world is as before. *)
Lemma validate_content_task_pure user td rc (s : S) :
  snd (vct user td rc s) = s.
Proof.
  unfold validate_content_task, bind, ret, raise.
  destruct (td !! "channel_id") as [cid |]; [| reflexivity].
  destruct (channel_metadata_get cid) as [c | | e]; simpl; try reflexivity.
  - destruct (truthy _ && negb _); [reflexivity |].
    destruct (truthy _ && negb _); reflexivity.
  - destruct rc; simpl; [reflexivity |].
    destruct (truthy _ && negb _); [reflexivity |].
    destruct (truthy _ && negb _); reflexivity.
Qed.

Lemma list_or_falsy_check v :
  truthy v && negb (is_list v) = negb (list_or_falsy v).
Proof. unfold list_or_falsy. destruct (truthy v), (is_list v); reflexivity. Qed.

Lemma validate_content_task_shape user td rc (s s' : S) task :
  vct user td rc s = (Ok task, s') ->
  s' = s /\
  exists cid name fs tr,
    td !! "channel_id" = Some cid /\
    task = content_task cid name fs tr
             (dict_get_default td "exclude_node_ids" VNone)
             (dict_get_default td "node_ids" VNone) user.
Proof.
  unfold validate_content_task, bind, ret, raise.
  destruct (td !! "channel_id") as [cid |]; [| discriminate].
  destruct (channel_metadata_get cid) as [c | | e]; simpl;
    [| destruct rc; simpl; [discriminate |] | discriminate].
  all: destruct (truthy _ && negb _); [discriminate |].
  all: destruct (truthy _ && negb _); [discriminate |].
  all: intros [= <- <-]; split; [reflexivity |].
  all: eexists _, _, _, _; split; reflexivity.
Qed.

Lemma validate_content_task_dom user td rc (s s' : S) task :
  vct user td rc s = (Ok task, s') -> dom task = content_task_keys.
Proof.
  intros Hrun.
  destruct (validate_content_task_shape _ _ _ _ _ _ Hrun)
    as (_ & cid & name & fs & tr & _ & ->).
  reflexivity.
Qed.

(** [validate_content_task] lets a task description through exactly when
    it has a [channel_id], the channel exists or is not required, and
    [node_ids] and [exclude_node_ids] are each falsy or a list. *)
Theorem validate_content_task_accepts_iff user td rc (s : S) :
  (exists task, vct user td rc s = (Ok task, s)) <->
  content_task_acceptable channel_metadata_get td rc.
Proof.
  unfold content_task_acceptable, validate_content_task, bind, ret, raise.
  rewrite !list_or_falsy_check.
  destruct (td !! "channel_id") as [cid |].
  2: { split; [intros [t [=]] | intros (c & [=] & _)]. }
  destruct (channel_metadata_get cid) as [c | | e] eqn:Hget; simpl.
  - destruct (list_or_falsy (dict_get_default td "node_ids" VNone)) eqn:Hn; simpl.
    + destruct (list_or_falsy (dict_get_default td "exclude_node_ids" VNone)) eqn:He;
        simpl.
      * split; [intros _ | eauto]. exists cid. rewrite Hget. auto.
      * split; [intros [t [=]] | intros (c' & _ & _ & _ & [=])].
    + split; [intros [t [=]] | intros (c' & _ & _ & [=] & _)].
  - destruct rc; simpl.
    + split; [intros [t [=]] |]. intros (c' & [= <-] & Hc & _).
      rewrite Hget in Hc. discriminate Hc.
    + destruct (list_or_falsy (dict_get_default td "node_ids" VNone)) eqn:Hn; simpl.
      * destruct (list_or_falsy (dict_get_default td "exclude_node_ids" VNone)) eqn:He;
          simpl.
        -- split; [intros _ | eauto]. exists cid. rewrite Hget. auto.
        -- split; [intros [t [=]] | intros (c' & _ & _ & _ & [=])].
      * split; [intros [t [=]] | intros (c' & _ & _ & [=] & _)].
  - split; [intros [t [=]] |]. intros (c' & [= <-] & Hc & _).
    rewrite Hget in Hc. destruct Hc.
Qed.

(** The errors of [validate_content_task] come in a fixed order: a missing
    [channel_id] first, then a required channel that does not exist, then
    [node_ids], then [exclude_node_ids]; each leaves the world untouched. *)
Theorem validate_content_task_error_order user td rc (s : S) :
  (td !! "channel_id" = None ->
     vct user td rc s =
       (Raise (ValidationError "The channel_ids field is required."), s)) /\
  (forall cid, td !! "channel_id" = Some cid ->
     channel_metadata_get cid = DoesNotExist -> rc = true ->
     vct user td rc s = (Raise (ValidationError "This channel does not exist"), s)) /\
  (forall cid, td !! "channel_id" = Some cid ->
     (channel_metadata_get cid = DoesNotExist -> rc = false) ->
     (forall e, channel_metadata_get cid <> LookupRaises e) ->
     list_or_falsy (dict_get_default td "node_ids" VNone) = false ->
     vct user td rc s = (Raise (ValidationError "node_ids must be a list."), s)) /\
  (forall cid, td !! "channel_id" = Some cid ->
     (channel_metadata_get cid = DoesNotExist -> rc = false) ->
     (forall e, channel_metadata_get cid <> LookupRaises e) ->
     list_or_falsy (dict_get_default td "node_ids" VNone) = true ->
     list_or_falsy (dict_get_default td "exclude_node_ids" VNone) = false ->
     vct user td rc s =
       (Raise (ValidationError "exclude_node_ids must be a list."), s)).
Proof.
  unfold validate_content_task, bind, ret, raise.
  rewrite !list_or_falsy_check.
  split; [intros ->; reflexivity |].
  split; [intros cid -> -> ->; reflexivity |].
  split.
  - intros cid -> Hrc Hne Hn.
    destruct (channel_metadata_get cid) as [c | | e]; simpl.
    + rewrite Hn. reflexivity.
    + rewrite (Hrc eq_refl). simpl. rewrite Hn. reflexivity.
    + destruct (Hne e eq_refl).
  - intros cid -> Hrc Hne Hn He.
    destruct (channel_metadata_get cid) as [c | | e]; simpl.
    + rewrite Hn, He. reflexivity.
    + rewrite (Hrc eq_refl). simpl. rewrite Hn, He. reflexivity.
    + destruct (Hne e eq_refl).
Qed.

(** What an accepted task carries: exactly the eight keys; the
    [channel_id] and the requesting user as given; [file_size] and
    [total_resources] from the task description whenever it has the key
    (even with a null value), otherwise from the channel, or [None] when
    the channel is unknown; the channel's name, or the empty string. *)
Theorem validate_content_task_result user td rc (s s' : S) task :
  vct user td rc s = (Ok task, s') ->
  s' = s /\
  dom task = content_task_keys /\
  task !! "channel_id" = td !! "channel_id" /\
  task !! "started_by" = Some (user_pk user) /\
  task !! "started_by_username" = Some (VStr (user_username user)) /\
  task !! "node_ids" = Some (dict_get_default td "node_ids" VNone) /\
  task !! "exclude_node_ids" = Some (dict_get_default td "exclude_node_ids" VNone) /\
  (exists cid, td !! "channel_id" = Some cid /\
     match channel_metadata_get cid with
     | Found c =>
         task !! "channel_name" = Some (VStr (ch_name c)) /\
         task !! "file_size" =
           Some (dict_get_default td "file_size" (ch_published_size c)) /\
         task !! "total_resources" =
           Some (dict_get_default td "total_resources" (ch_total_resource_count c))
     | _ =>
         task !! "channel_name" = Some (VStr "") /\
         task !! "file_size" = Some (dict_get_default td "file_size" VNone) /\
         task !! "total_resources" =
           Some (dict_get_default td "total_resources" VNone)
     end).
Proof.
  intros Hrun.
  assert (Hs : s' = s).
  { pose proof (validate_content_task_pure user td rc s) as Hp.
    rewrite Hrun in Hp. exact Hp. }
  split; [exact Hs |]. clear Hs. revert Hrun.
  unfold validate_content_task, bind, ret, raise.
  destruct (td !! "channel_id") as [cid |]; [| discriminate].
  destruct (channel_metadata_get cid) as [c | | e] eqn:Hget; simpl;
    [| destruct rc; simpl; [discriminate |] | discriminate].
  all: destruct (truthy _ && negb _); [discriminate |].
  all: destruct (truthy _ && negb _); [discriminate |].
  all: intros [= <- _].
  all: repeat split; try reflexivity.
  all: exists cid; rewrite Hget; repeat split; reflexivity.
Qed.

Local Abbreviation vrit :=
  (validate_remote_import_task (S := S) channel_metadata_get
     network_location_base_url CENTRAL_CONTENT_BASE_URL py_format).
Local Abbreviation vlit :=
  (validate_local_import_task (S := S) channel_metadata_get get_mounted_drive_by_id).
Local Abbreviation vlet :=
  (validate_local_export_task (S := S) channel_metadata_get get_mounted_drive_by_id).
Local Abbreviation vdt := (validate_deletion_task (S := S) channel_metadata_get).

Lemma dict_update_dom (d other : pydict) :
  dom (dict_update d other) = dom other ∪ dom d.
Proof. unfold dict_update. apply dom_union_L. Qed.

(** The peer of a remote import, once the content part is accepted: without
    a [peer_id] the task goes to the central server, with peer [None], and
    the peer table is not consulted; with a known peer it carries that
    peer's base URL and the [peer_id] as given; with an unknown peer the
    validator raises an error that names the peer.  Accepted tasks have the
    eight content keys plus [baseurl] and [peer_id]. *)
Theorem validate_remote_import_task_peer user td (s : S) task0 :
  vct user td false s = (Ok task0, s) ->
  (td !! "peer_id" = None ->
     exists task, vrit user td s = (Ok task, s) /\
       task !! "baseurl" = Some (VStr CENTRAL_CONTENT_BASE_URL) /\
       task !! "peer_id" = Some VNone) /\
  (forall peer_id baseurl, td !! "peer_id" = Some peer_id ->
     network_location_base_url peer_id = Found baseurl ->
     exists task, vrit user td s = (Ok task, s) /\
       task !! "baseurl" = Some (VStr baseurl) /\
       task !! "peer_id" = Some peer_id) /\
  (forall peer_id, td !! "peer_id" = Some peer_id ->
     network_location_base_url peer_id = DoesNotExist ->
     vrit user td s =
       (Raise (ValidationError
                 ("Peer with id " ++ py_format peer_id ++ " does not exist")), s)) /\
  (forall task, vrit user td s = (Ok task, s) ->
     dom task = content_task_keys ∪ {["baseurl"; "peer_id"]} /\
     forall k, k <> "baseurl" -> k <> "peer_id" -> task !! k = task0 !! k).
Proof.
  intros Hrun0.
  pose proof (validate_content_task_dom _ _ _ _ _ _ Hrun0) as Hdom.
  unfold validate_remote_import_task, bind, ret, raise. rewrite Hrun0.
  split; [| split; [| split]].
  - intros ->. eexists. split; [reflexivity |].
    rewrite !dict_update_lookup. split; reflexivity.
  - intros peer_id baseurl -> ->. eexists. split; [reflexivity |].
    rewrite !dict_update_lookup. split; reflexivity.
  - intros peer_id -> ->. reflexivity.
  - intros task Htask.
    assert (Hshape : exists b p,
      task = dict_update task0 (<["baseurl" := VStr b]> (<["peer_id" := p]> ∅))).
    { destruct (td !! "peer_id") as [peer_id |].
      - destruct (network_location_base_url peer_id) as [b | | e].
        + injection Htask as <-. eauto.
        + discriminate.
        + destruct (is_KeyError e); [| discriminate]. injection Htask as <-. eauto.
      - injection Htask as <-. eauto. }
    destruct Hshape as (b & p & ->). split.
    + rewrite dict_update_dom, !dom_insert_L, dom_empty_L, Hdom. set_solver.
    + intros k Hb Hp. rewrite dict_update_lookup.
      rewrite lookup_insert_ne by congruence.
      rewrite lookup_insert_ne by congruence.
      rewrite lookup_empty. reflexivity.
Qed.

(** The drive of a disk import or export, once the content part is
    accepted: a missing [drive_id] and a drive that is not mounted are each
    reported as a validation error; otherwise the task gains the
    [drive_id] as given and the [datafolder] of the mounted drive, and keeps
    the eight content entries. *)
Theorem validate_local_import_task_drive user td (s : S) task0 :
  vct user td false s = (Ok task0, s) ->
  (td !! "drive_id" = None ->
     vlit user td s =
       (Raise (ValidationError "The drive_id field is required."), s)) /\
  (forall drive_id s1, td !! "drive_id" = Some drive_id ->
     get_mounted_drive_by_id drive_id s = (Raise KeyError, s1) ->
     vlit user td s =
       (Raise (ValidationError
                 "That drive_id was not found in the list of drives."), s1)) /\
  (forall drive_id drive s1, td !! "drive_id" = Some drive_id ->
     get_mounted_drive_by_id drive_id s = (Ok drive, s1) ->
     exists task, vlit user td s = (Ok task, s1) /\
       task !! "drive_id" = Some drive_id /\
       task !! "datafolder" = Some (VStr (datafolder drive)) /\
       dom task = content_task_keys ∪ {["drive_id"; "datafolder"]} /\
       forall k, k <> "drive_id" -> k <> "datafolder" -> task !! k = task0 !! k).
Proof.
  intros Hrun0.
  pose proof (validate_content_task_dom _ _ _ _ _ _ Hrun0) as Hdom.
  unfold validate_local_import_task, _add_drive_info, bind, try_except, ret, raise.
  rewrite Hrun0.
  split; [| split].
  - intros ->. reflexivity.
  - intros drive_id s1 -> ->. reflexivity.
  - intros drive_id drive s1 -> ->. eexists. split; [reflexivity |].
    rewrite !dict_update_lookup. split; [reflexivity |]. split; [reflexivity |].
    split.
    + rewrite dict_update_dom, !dom_insert_L, dom_empty_L, Hdom. set_solver.
    + intros k Hd Hf. rewrite dict_update_lookup.
      rewrite lookup_insert_ne by congruence.
      rewrite lookup_insert_ne by congruence.
      rewrite lookup_empty. reflexivity.
Qed.

(** An unknown channel stops an export and a deletion but not an import:
    for a channel id the database does not know, the export and deletion
    validators raise "This channel does not exist" whatever else the task
    description holds, while the content validation of an import accepts
    it (given well-typed node lists) under the empty channel name. *)
Theorem unknown_channel_export_delete_only user td (s : S) cid :
  td !! "channel_id" = Some cid ->
  channel_metadata_get cid = DoesNotExist ->
  vlet user td s = (Raise (ValidationError "This channel does not exist"), s) /\
  vdt user td s = (Raise (ValidationError "This channel does not exist"), s) /\
  (list_or_falsy (dict_get_default td "node_ids" VNone) = true ->
   list_or_falsy (dict_get_default td "exclude_node_ids" VNone) = true ->
   exists task, vct user td false s = (Ok task, s) /\
     task !! "channel_name" = Some (VStr "")).
Proof.
  intros Hcid Hget.
  unfold validate_local_export_task, validate_deletion_task,
    validate_content_task, bind, ret, raise.
  rewrite Hcid, Hget, !list_or_falsy_check. simpl.
  split; [reflexivity |]. split; [reflexivity |].
  intros -> ->. simpl. eexists. split; reflexivity.
Qed.

(** An accepted deletion task carries [force_delete] as a boolean: the
    truth value of the description's [force_delete], false when the key is
    absent; the other entries are those of the content validation. *)
Theorem validate_deletion_task_force_delete user td (s : S) task0 :
  vct user td true s = (Ok task0, s) ->
  exists task, vdt user td s = (Ok task, s) /\
    task !! "force_delete" = Some (VBool (truthy (dict_get td "force_delete"))) /\
    (td !! "force_delete" = None -> task !! "force_delete" = Some (VBool false)) /\
    dom task = content_task_keys ∪ {["force_delete"]} /\
    forall k, k <> "force_delete" -> task !! k = task0 !! k.
Proof.
  intros Hrun0.
  pose proof (validate_content_task_dom _ _ _ _ _ _ Hrun0) as Hdom.
  unfold validate_deletion_task, bind, ret. rewrite Hrun0.
  eexists. split; [reflexivity |].
  split; [apply lookup_insert_eq |]. split; [| split].
  - intros Hnone. rewrite lookup_insert_eq. unfold dict_get. rewrite Hnone. reflexivity.
  - rewrite dom_insert_L, Hdom. set_solver.
  - intros k Hk. apply lookup_insert_ne. congruence.
Qed.

End ValidationFacts.

Lemma validate_content_task_error_order_witness :
  validate_content_task sample_channels sample_user ∅ false tt =
    (Raise (ValidationError "The channel_ids field is required."), tt) /\
  validate_content_task sample_channels sample_user td_unknown_channel true tt =
    (Raise (ValidationError "This channel does not exist"), tt) /\
  validate_content_task sample_channels sample_user td_bad_nodes false tt =
    (Raise (ValidationError "node_ids must be a list."), tt) /\
  validate_content_task sample_channels sample_user td_bad_exclude false tt =
    (Raise (ValidationError "exclude_node_ids must be a list."), tt).
Proof.
  split; [apply (validate_content_task_error_order sample_channels); reflexivity |].
  split.
  { eapply (validate_content_task_error_order sample_channels); reflexivity. }
  split.
  { eapply (validate_content_task_error_order sample_channels).
    - reflexivity.
    - discriminate.
    - discriminate.
    - reflexivity. }
  eapply (validate_content_task_error_order sample_channels).
  - reflexivity.
  - discriminate.
  - discriminate.
  - reflexivity.
  - reflexivity.
Defined.

Lemma validate_content_task_result_witness :
  exists task,
    validate_content_task sample_channels sample_user td_import false tt =
      (Ok task, tt) /\
    dom task = content_task_keys /\
    task !! "started_by" = Some (VInt 1).
Proof.
  eexists. split; [reflexivity |].
  edestruct (validate_content_task_result sample_channels sample_user td_import
               false tt tt) as (_ & Hdom & _ & Hby & _).
  - reflexivity.
  - split; [exact Hdom | exact Hby].
Defined.

Lemma validate_remote_import_task_peer_witness :
  (exists task,
     validate_remote_import_task sample_channels sample_peers "http://central/"
       sample_format sample_user td_import tt = (Ok task, tt) /\
     task !! "baseurl" = Some (VStr "http://peer.local/") /\
     task !! "peer_id" = Some (VInt 7)) /\
  validate_remote_import_task sample_channels sample_peers "http://central/"
    sample_format sample_user td_unknown_channel tt =
    (Raise (ValidationError "Peer with id ? does not exist"), tt).
Proof.
  split.
  - edestruct (validate_remote_import_task_peer sample_channels sample_peers
                 "http://central/" sample_format sample_user td_import tt)
      as (_ & Hknown & _).
    + reflexivity.
    + apply (Hknown (VInt 7) "http://peer.local/"); reflexivity.
  - edestruct (validate_remote_import_task_peer sample_channels sample_peers
                 "http://central/" sample_format sample_user td_unknown_channel tt)
      as (_ & _ & Hunknown & _).
    + reflexivity.
    + apply (Hunknown (VInt 8)); reflexivity.
Defined.

Lemma validate_local_import_task_drive_witness :
  (exists task,
     validate_local_import_task sample_channels sample_drives sample_user
       td_import tt = (Ok task, tt) /\
     task !! "drive_id" = Some (VStr "d1") /\
     task !! "datafolder" = Some (VStr "/media/d1")) /\
  validate_local_import_task sample_channels sample_drives sample_user
    td_unknown_channel tt =
    (Raise (ValidationError "That drive_id was not found in the list of drives."), tt).
Proof.
  split.
  - edestruct (validate_local_import_task_drive sample_channels sample_drives
                 sample_user td_import tt) as (_ & _ & Hfound).
    + reflexivity.
    + destruct (Hfound (VStr "d1") {| datafolder := "/media/d1" |} tt)
        as (task & Hrun & Hid & Hfolder & _); [reflexivity | reflexivity |].
      exists task. auto.
  - edestruct (validate_local_import_task_drive sample_channels sample_drives
                 sample_user td_unknown_channel tt) as (_ & Hmissing & _).
    + reflexivity.
    + apply (Hmissing (VStr "d9")); reflexivity.
Defined.

Lemma unknown_channel_export_delete_only_witness :
  validate_local_export_task sample_channels sample_drives sample_user
    td_unknown_channel tt =
    (Raise (ValidationError "This channel does not exist"), tt) /\
  validate_deletion_task sample_channels sample_user td_unknown_channel tt =
    (Raise (ValidationError "This channel does not exist"), tt) /\
  exists task,
    validate_content_task sample_channels sample_user td_unknown_channel false tt =
      (Ok task, tt) /\
    task !! "channel_name" = Some (VStr "").
Proof.
  destruct (unknown_channel_export_delete_only sample_channels sample_drives
              sample_user td_unknown_channel tt (VStr "zz"))
    as (Hexport & Hdelete & Himport); [reflexivity | reflexivity |].
  split; [exact Hexport |]. split; [exact Hdelete |].
  apply Himport; reflexivity.
Defined.

Lemma validate_deletion_task_force_delete_witness :
  exists task,
    validate_deletion_task sample_channels sample_user td_delete tt = (Ok task, tt) /\
    task !! "force_delete" = Some (VBool true).
Proof.
  edestruct (validate_deletion_task_force_delete sample_channels sample_user
               td_delete tt) as (task & Hrun & Hforce & _).
  - reflexivity.
  - exists task. split; [exact Hrun | exact Hforce].
Defined.

(** ** Permissions *)

(** Who may call what: a user who can manage content but not export logs
    is admitted to every action except [startexportlogcsv]; a user who can
    only export logs is admitted to [list], [deletefinishedtasks] and
    [startexportlogcsv] and nothing else; a user with neither permission
    is admitted nowhere, a user with both everywhere. *)
Theorem permitted_by_role (action : string) :
  permitted true false action = negb (String.eqb action "startexportlogcsv") /\
  permitted false true action =
    bool_decide (action ∈ ["list"; "deletefinishedtasks"; "startexportlogcsv"]) /\
  permitted false false action = false /\
  permitted true true action = true.
Proof.
  unfold permitted, get_permissions.
  destruct (decide (action ∈ ["list"; "deletefinishedtasks"])) as [Hin | Hout].
  - rewrite (bool_decide_eq_true_2 _ Hin). simpl.
    assert (Hne : action <> "startexportlogcsv").
    { intros ->. revert Hin. rewrite !elem_of_cons, elem_of_nil.
      intros [H | [H | []]]; discriminate H. }
    destruct (String.eqb_spec action "startexportlogcsv"); [contradiction |].
    repeat split; try reflexivity.
    symmetry. apply bool_decide_eq_true_2.
    revert Hin. rewrite !elem_of_cons, !elem_of_nil. tauto.
  - rewrite (bool_decide_eq_false_2 _ Hout).
    destruct (String.eqb_spec action "startexportlogcsv") as [-> | Hne]; simpl.
    + repeat split; reflexivity.
    + repeat split; try reflexivity.
      symmetry. apply bool_decide_eq_false_2.
      revert Hout. rewrite !elem_of_cons, !elem_of_nil. tauto.
Qed.

(** ** Reading and clearing tasks *)

Section ClearEndpoints.
Import Queue QueueFacts.

Lemma queue_clear_run w :
  queue_clear w =
    (Ok tt, {| w_queue := snd (clear (w_queue w)); w_calls := w_calls w |}).
Proof. reflexivity. Qed.

(** For a job that exists, [retrieve] answers 200 with the summary of
    exactly that job, after one [fetch_job] call, and the queue is as it
    was. *)
Theorem retrieve_existing_job w pk j :
  q_jobs (w_queue w) !! pk = Some j ->
  TasksViewSet.retrieve pk w =
    (Ok (respond (_job_to_response (Some j))),
     logged (CallFetchJob pk) (w_queue w) w) /\
  http_status (fst (TasksViewSet.retrieve pk w)) = 200%Z.
Proof.
  intros Hpk. rewrite retrieve_run, Hpk. split; reflexivity.
Qed.

Lemma retrieve_existing_job_witness :
  exists resp w',
    TasksViewSet.retrieve "0" sample_world = (Ok resp, w') /\
    resp_data resp !! "type" = Some (VStr "DISKEXPORT") /\
    w_queue w' = export_queue.
Proof.
  edestruct (retrieve_existing_job sample_world "0") as (Hrun & _).
  - vm_compute. reflexivity.
  - eexists _, _. split; [exact Hrun |]. split; reflexivity.
Defined.

(** Without a usable [task_id] (absent, null, empty, zero) [cleartask]
    answers [{}] and does not touch the queue at all, while
    [deletefinishedtasks] clears every finished job. *)
Theorem falsy_task_id_clears_nothing_or_all request w :
  truthy (dict_get (data request) "task_id") = false ->
  TasksViewSet.cleartask request w = (Ok (respond ∅), w) /\
  deletefinishedtasks request w =
    (Ok (respond ∅),
     {| w_queue := snd (clear (w_queue w)); w_calls := w_calls w |}).
Proof.
  intros Hfalsy. unfold TasksViewSet.cleartask, deletefinishedtasks.
  rewrite Hfalsy. split; reflexivity.
Qed.

Lemma falsy_task_id_clears_nothing_or_all_witness :
  let w := {| w_queue := done_queue; w_calls := [] |} in
  TasksViewSet.cleartask (task_request (VStr "")) w = (Ok (respond ∅), w) /\
  q_jobs (w_queue (snd (deletefinishedtasks (task_request (VStr "")) w))) !! "0"
    = None.
Proof.
  intros w.
  destruct (falsy_task_id_clears_nothing_or_all (task_request (VStr "")) w)
    as (Hclear & Hdelete); [reflexivity |].
  split; [exact Hclear |]. rewrite Hdelete. vm_compute. reflexivity.
Defined.

(** [cleartask] and [deletefinishedtasks] catch nothing: whatever
    [queue.clear_job] raises for the given id, [JobNotFound] included, leaves
    the endpoint as it is, so an unknown id ends in a server error. *)
Theorem clear_endpoints_propagate request w id e q' :
  data request !! "task_id" = Some (VStr id) ->
  id <> "" ->
  clear_job id (w_queue w) = (Raise e, q') ->
  fst (TasksViewSet.cleartask request w) = Raise e /\
  fst (deletefinishedtasks request w) = Raise e /\
  (e = JobNotFound ->
     http_status (fst (TasksViewSet.cleartask request w)) = 500%Z).
Proof.
  intros Hd Hne Hclear.
  assert (Htruthy : truthy (VStr id) = true).
  { simpl. destruct (String.eqb_spec id ""); [contradiction | reflexivity]. }
  unfold TasksViewSet.cleartask, deletefinishedtasks, dict_get. rewrite Hd, Htruthy.
  unfold bind. rewrite queue_clear_job_run, Hclear. simpl.
  split; [reflexivity |]. split; [reflexivity |]. intros ->. reflexivity.
Qed.

Lemma clear_endpoints_propagate_witness :
  fst (TasksViewSet.cleartask (task_request (VStr "missing")) sample_world) =
    Raise JobNotFound /\
  fst (deletefinishedtasks (task_request (VStr "missing")) sample_world) =
    Raise JobNotFound.
Proof.
  destruct (clear_endpoints_propagate (task_request (VStr "missing")) sample_world
              "missing" JobNotFound export_queue) as (Hclear & Hdelete & _).
  - reflexivity.
  - discriminate.
  - vm_compute. reflexivity.
  - split; [exact Hclear | exact Hdelete].
Defined.

Lemma clear_job_keeps_transient id0 q id j :
  q_jobs q !! id = Some j -> terminal (state j) = false ->
  q_jobs (snd (clear_job id0 q)) !! id = Some j.
Proof.
  intros Hid Ht. unfold clear_job.
  destruct (q_jobs q !! id0) as [j0 |] eqn:H0; simpl; [| exact Hid].
  destruct (terminal (state j0)) eqn:Ht0; simpl; [| exact Hid].
  rewrite lookup_delete_ne; [exact Hid |]. intros ->. congruence.
Qed.

Lemma clear_keeps_transient q id j :
  q_jobs q !! id = Some j -> terminal (state j) = false ->
  q_jobs (snd (clear q)) !! id = Some j.
Proof.
  intros Hid Ht. simpl. apply map_lookup_filter_Some. split; assumption.
Qed.

(** Neither [cleartask] nor [deletefinishedtasks] ever removes or alters a
    job that has not finished, whatever the request. *)
Theorem clear_endpoints_keep_unfinished request w id j :
  q_jobs (w_queue w) !! id = Some j ->
  terminal (state j) = false ->
  q_jobs (w_queue (snd (TasksViewSet.cleartask request w))) !! id = Some j /\
  q_jobs (w_queue (snd (deletefinishedtasks request w))) !! id = Some j.
Proof.
  intros Hid Ht.
  assert (Hone : forall v,
    q_jobs (w_queue (snd (queue_clear_job v w))) !! id = Some j).
  { intros v. unfold queue_clear_job, bind, log_call, modify, raise. simpl.
    destruct (key_of v) as [id0 |]; simpl; [| exact Hid].
    unfold on_queue. simpl.
    pose proof (clear_job_keeps_transient id0 _ _ _ Hid Ht) as Hkeep.
    destruct (clear_job id0 (w_queue w)) as [r q1]. exact Hkeep. }
  unfold TasksViewSet.cleartask, deletefinishedtasks.
  destruct (truthy (dict_get (data request) "task_id")).
  - specialize (Hone (dict_get (data request) "task_id")).
    unfold bind.
    destruct (queue_clear_job (dict_get (data request) "task_id") w) as [[[] | e] w1];
      simpl in *; auto.
  - split; [exact Hid |]. unfold bind. rewrite queue_clear_run. simpl.
    apply (clear_keeps_transient _ _ _ Hid Ht).
Qed.

Lemma clear_endpoints_keep_unfinished_witness :
  exists j,
    q_jobs (w_queue (snd (deletefinishedtasks {| data := ∅ |} sample_world))) !! "0"
      = Some j /\
    state j = SCHEDULED.
Proof.
  edestruct (clear_endpoints_keep_unfinished {| data := ∅ |} sample_world "0")
    as (_ & Hdelete).
  - vm_compute. reflexivity.
  - reflexivity.
  - eexists. split; [exact Hdelete | reflexivity].
Defined.

End ClearEndpoints.

(** ** Starting jobs *)

Section StartFacts.
Import Queue QueueFacts.
Variable channel_metadata_get : pyval -> lookup Channel.
Variable network_location_base_url : pyval -> lookup string.
Variable CENTRAL_CONTENT_BASE_URL : string.
Variable py_format : pyval -> string.

Local Abbreviation vrit' :=
  (validate_remote_import_task (S := world) channel_metadata_get
     network_location_base_url CENTRAL_CONTENT_BASE_URL py_format).
Local Abbreviation start_remote :=
  (startremotechannelimport channel_metadata_get network_location_base_url
     CENTRAL_CONTENT_BASE_URL py_format).

Lemma validate_remote_import_task_pure user td (w : world) :
  snd (vrit' user td w) = w.
Proof.
  unfold validate_remote_import_task, bind, ret, raise.
  pose proof (validate_content_task_pure channel_metadata_get user td false w) as Hp.
  destruct (validate_content_task channel_metadata_get user td false w) as [[t | e] w1];
    simpl in Hp; subst w1; [| reflexivity].
  destruct (td !! "peer_id") as [p |]; [| reflexivity].
  destruct (network_location_base_url p) as [b | | e]; try reflexivity.
  destruct (is_KeyError e); reflexivity.
Qed.

Lemma validate_remote_import_task_shape user td (w w' : world) task :
  vrit' user td w = (Ok task, w') ->
  exists cid name fs tr b p,
    td !! "channel_id" = Some cid /\
    task =
      dict_update
        (content_task cid name fs tr
           (dict_get_default td "exclude_node_ids" VNone)
           (dict_get_default td "node_ids" VNone) user)
        (<["baseurl" := VStr b]> (<["peer_id" := p]> ∅)).
Proof.
  unfold validate_remote_import_task, bind, ret, raise.
  destruct (validate_content_task channel_metadata_get user td false w)
    as [[t | e] w1] eqn:Hrun0; [| discriminate].
  destruct (validate_content_task_shape _ _ _ _ _ _ _ Hrun0)
    as (_ & cid & name & fs & tr & Hcid & ->).
  intros Hrun. exists cid, name, fs, tr.
  destruct (td !! "peer_id") as [p |].
  - destruct (network_location_base_url p) as [b | | e].
    + injection Hrun as <- _. exists b, p. split; [exact Hcid | reflexivity].
    + discriminate.
    + destruct (is_KeyError e); [| discriminate].
      injection Hrun as <- _. eexists _, _. split; [exact Hcid | reflexivity].
  - injection Hrun as <- _. eexists _, _. split; [exact Hcid | reflexivity].
Qed.

Lemma queue_enqueue_run fn a kw can track extra q calls :
  queue_enqueue fn a kw can track extra {| w_queue := q; w_calls := calls |} =
    if decide (fn ∈ q_registry q) then
      (Ok (fresh (q_issued q)),
       {| w_queue :=
            {| q_jobs := <[fresh (q_issued q) :=
                             new_job (fresh (q_issued q)) fn a kw can track extra]>
                           (q_jobs q);
               q_issued := {[fresh (q_issued q)]} ∪ q_issued q;
               q_registry := q_registry q |};
          w_calls := calls |})
    else (Raise InvalidFunctionError, {| w_queue := q; w_calls := calls |}).
Proof.
  unfold queue_enqueue, on_queue, enqueue. simpl.
  destruct (decide (fn ∈ q_registry q)); reflexivity.
Qed.

(** The endpoint, once the task description is accepted. *)
Lemma start_remote_accepted user request q calls content b p cid :
  content !! "channel_id" = Some cid ->
  vrit' user (data request) {| w_queue := q; w_calls := calls |} =
    (Ok (dict_update content (<["baseurl" := VStr b]> (<["peer_id" := p]> ∅))),
     {| w_queue := q; w_calls := calls |}) ->
  start_remote user request {| w_queue := q; w_calls := calls |} =
    let task := remote_channel_import_task content b p in
    let id := fresh (q_issued q) in
    let job :=
      new_job id "call_command"
        [VStr "importchannel"; VStr "network"; cid]
        (<["baseurl" := VStr b]> (<["peer_id" := p]> ∅)) true false task in
    if decide ("call_command" ∈ q_registry q) then
      (Ok (respond (_job_to_response (Some job))),
       {| w_queue :=
            {| q_jobs := <[id := job]> (q_jobs q);
               q_issued := {[id]} ∪ q_issued q;
               q_registry := q_registry q |};
          w_calls := (calls ++ [CallFetchJob id])%list |})
    else (Raise InvalidFunctionError, {| w_queue := q; w_calls := calls |}).
Proof.
  intros Hcid Hval. unfold startremotechannelimport.
  unfold bind at 1. rewrite Hval.
  fold (remote_channel_import_task content b p).
  assert (Hc : remote_channel_import_task content b p !! "channel_id" = Some cid).
  { unfold remote_channel_import_task. rewrite !dict_update_lookup.
    rewrite Hcid. reflexivity. }
  assert (Hb : remote_channel_import_task content b p !! "baseurl" = Some (VStr b)).
  { unfold remote_channel_import_task. rewrite !dict_update_lookup. reflexivity. }
  assert (Hp : remote_channel_import_task content b p !! "peer_id" = Some p).
  { unfold remote_channel_import_task. rewrite !dict_update_lookup. reflexivity. }
  unfold getitem. rewrite Hc, Hb, Hp. unfold bind, ret. simpl.
  rewrite queue_enqueue_run.
  destruct (decide ("call_command" ∈ q_registry q)); [| reflexivity].
  rewrite queue_fetch_job_run. unfold fetch_job, logged. simpl.
  rewrite lookup_insert_eq. reflexivity.
Qed.

(** [startremotechannelimport] is all or nothing.  When it raises, the
    world is exactly as before: nothing was enqueued.  When it answers, the
    queue has gained exactly one job, under a fresh id, scheduled,
    cancellable, without progress tracking, and the response (status 200)
    reports that job's own id, state, progress and flag, the type
    [REMOTECHANNELIMPORT] and the channel id of the request. *)
Theorem startremotechannelimport_all_or_nothing user request w :
  (forall e w', startremotechannelimport channel_metadata_get network_location_base_url
     CENTRAL_CONTENT_BASE_URL py_format user request w = (Raise e, w') -> w' = w) /\
  (forall resp w', startremotechannelimport channel_metadata_get network_location_base_url
     CENTRAL_CONTENT_BASE_URL py_format user request w = (Ok resp, w') ->
     exists job,
       q_jobs (w_queue w') =
         <[fresh (q_issued (w_queue w)) := job]> (q_jobs (w_queue w)) /\
       job_id job = fresh (q_issued (w_queue w)) /\
       state job = SCHEDULED /\
       cancellable job = true /\
       track_progress job = false /\
       status_code resp = 200%Z /\
       resp_data resp !! "id" = Some (VStr (job_id job)) /\
       resp_data resp !! "status" = Some (VState SCHEDULED) /\
       resp_data resp !! "percentage" = Some (VFloat 0) /\
       resp_data resp !! "cancellable" = Some (VBool true) /\
       resp_data resp !! "type" = Some (VStr "REMOTECHANNELIMPORT") /\
       resp_data resp !! "channel_id" = data request !! "channel_id").
Proof.
  destruct w as [q calls].
  pose proof (validate_remote_import_task_pure user (data request)
                {| w_queue := q; w_calls := calls |}) as Hpure.
  destruct (vrit' user (data request) {| w_queue := q; w_calls := calls |})
    as [[task | e0] w1] eqn:Hval; simpl in Hpure; subst w1.
  - destruct (validate_remote_import_task_shape _ _ _ _ _ Hval)
      as (cid & name & fs & tr & b & p & Hcid & ->).
    rewrite (fun H => start_remote_accepted user request q calls _ b p cid H Hval)
      by reflexivity.
    simpl. destruct (decide ("call_command" ∈ q_registry q)).
    + split; [discriminate |]. intros resp w' [= <- <-].
      eexists. split; [reflexivity |].
      rewrite Hcid. repeat split; reflexivity.
    + split; [| discriminate]. intros e w' [= _ <-]. reflexivity.
  - assert (Hrun : start_remote user request {| w_queue := q; w_calls := calls |} =
                     (Raise e0, {| w_queue := q; w_calls := calls |})).
    { unfold startremotechannelimport. unfold bind at 1. rewrite Hval. reflexivity. }
    rewrite Hrun. split; [| discriminate]. intros e w' [= _ <-]. reflexivity.
Qed.

End StartFacts.

Lemma startremotechannelimport_all_or_nothing_witness :
  let start :=
    startremotechannelimport sample_channels sample_peers "http://central/"
      sample_format sample_user in
  snd (start (request_of td_unknown_channel) sample_world) = sample_world /\
  exists resp w',
    start (request_of td_import) sample_world = (Ok resp, w') /\
    resp_data resp !! "id" = Some (VStr "1") /\
    resp_data resp !! "type" = Some (VStr "REMOTECHANNELIMPORT").
Proof.
  intros start.
  destruct (startremotechannelimport_all_or_nothing sample_channels sample_peers
              "http://central/" sample_format sample_user
              (request_of td_unknown_channel) sample_world) as (Hfail & _).
  destruct (startremotechannelimport_all_or_nothing sample_channels sample_peers
              "http://central/" sample_format sample_user
              (request_of td_import) sample_world) as (_ & Hok).
  split.
  - apply (Hfail (ValidationError "Peer with id ? does not exist")).
    vm_compute. reflexivity.
  - destruct (start (request_of td_import) sample_world) as [[resp | e] w'] eqn:Hrun;
      [| vm_compute in Hrun; discriminate Hrun].
    destruct (Hok resp w' Hrun) as (job & _ & Hid & _ & _ & _ & _ & Hrid & _ & _ & _ & Htype & _).
    exists resp, w'. split; [reflexivity |]. split; [| exact Htype].
    rewrite Hrid, Hid. vm_compute. reflexivity.
Defined.

Lemma bind_getitem {S A} (d : pydict) k v (f : pyval -> M S A) s :
  d !! k = Some v -> bind (getitem d k) f s = f v s.
Proof. intros H. unfold bind, getitem. rewrite H. reflexivity. Qed.

Section DeleteFacts.
Import Queue QueueFacts.
Variable channel_metadata_get : pyval -> lookup Channel.

Local Abbreviation vdt' := (validate_deletion_task (S := world) channel_metadata_get).
Local Abbreviation start_delete := (startdeletechannel channel_metadata_get).

Lemma validate_deletion_task_shape user td (w w' : world) task :
  vdt' user td w = (Ok task, w') ->
  w' = w /\
  exists cid name fs tr,
    td !! "channel_id" = Some cid /\
    validate_content_task channel_metadata_get user td true w =
      (Ok (content_task cid name fs tr
             (dict_get_default td "exclude_node_ids" VNone)
             (dict_get_default td "node_ids" VNone) user), w) /\
    task =
      <["force_delete" := VBool (truthy (dict_get td "force_delete"))]>
        (content_task cid name fs tr
           (dict_get_default td "exclude_node_ids" VNone)
           (dict_get_default td "node_ids" VNone) user).
Proof.
  unfold validate_deletion_task, bind, ret.
  destruct (validate_content_task channel_metadata_get user td true w)
    as [[t | e] w1] eqn:Hrun0; [| discriminate].
  destruct (validate_content_task_shape _ _ _ _ _ _ _ Hrun0)
    as (-> & cid & name & fs & tr & Hcid & ->).
  intros [= <- <-]. split; [reflexivity |].
  exists cid, name, fs, tr. auto.
Qed.

(** A deletion that names nodes reports no sizes.  When
    [startdeletechannel] answers, the job it enqueued tracks progress, is
    not cancellable and carries [force_delete] as a boolean; the response
    has type [DELETECONTENT]; and [file_size] and [total_resources] are
    [None] as soon as [node_ids] or [exclude_node_ids] is non-empty,
    otherwise they are the validated ones. *)
Theorem startdeletechannel_sizes user request w resp w' :
  start_delete user request w = (Ok resp, w') ->
  let td := data request in
  let restricted :=
    truthy (dict_get_default td "node_ids" VNone) ||
    truthy (dict_get_default td "exclude_node_ids" VNone) in
  resp_data resp !! "type" = Some (VStr "DELETECONTENT") /\
  resp_data resp !! "cancellable" = Some (VBool false) /\
  (restricted = true ->
     resp_data resp !! "file_size" = Some VNone /\
     resp_data resp !! "total_resources" = Some VNone) /\
  (restricted = false ->
     exists task0,
       validate_content_task channel_metadata_get user td true w = (Ok task0, w) /\
       resp_data resp !! "file_size" = task0 !! "file_size" /\
       resp_data resp !! "total_resources" = task0 !! "total_resources") /\
  exists job,
    q_jobs (w_queue w') !! fresh (q_issued (w_queue w)) = Some job /\
    track_progress job = true /\
    cancellable job = false /\
    kwargs job !! "force_delete" =
      Some (VBool (truthy (dict_get td "force_delete"))).
Proof.
  destruct w as [q calls]. intros Hrun td restricted. revert Hrun.
  unfold startdeletechannel. unfold bind at 1.
  destruct (vdt' user (data request) {| w_queue := q; w_calls := calls |})
    as [[task | e0] w1] eqn:Hval; [| discriminate].
  destruct (validate_deletion_task_shape _ _ _ _ _ Hval)
    as (-> & cid & name & fs & tr & Hcid & Hcontent & ->).
  cbv zeta.
  erewrite bind_getitem by reflexivity.
  fold td. subst restricted.
  destruct (truthy (dict_get_default td "node_ids" VNone)) eqn:Hn.
  - unfold bind at 1. unfold ret at 1.
    do 4 (erewrite bind_getitem by reflexivity).
    unfold bind at 1. rewrite queue_enqueue_run.
    destruct (decide ("call_command" ∈ q_registry q)); [| discriminate].
    unfold bind, ret. rewrite queue_fetch_job_run. unfold fetch_job, logged. simpl.
    rewrite lookup_insert_eq. intros [= <- <-]. simpl.
    rewrite lookup_insert_eq.
    repeat split; try reflexivity; try discriminate.
    eexists. repeat split; reflexivity.
  - unfold bind at 1. erewrite bind_getitem by reflexivity. unfold ret at 1.
    destruct (truthy (dict_get_default td "exclude_node_ids" VNone)) eqn:He.
    + do 4 (erewrite bind_getitem by reflexivity).
      unfold bind at 1. rewrite queue_enqueue_run.
      destruct (decide ("call_command" ∈ q_registry q)); [| discriminate].
      unfold bind, ret. rewrite queue_fetch_job_run. unfold fetch_job, logged. simpl.
      rewrite lookup_insert_eq. intros [= <- <-]. simpl.
      rewrite lookup_insert_eq.
      repeat split; try reflexivity; try discriminate.
      eexists. repeat split; reflexivity.
    + do 4 (erewrite bind_getitem by reflexivity).
      unfold bind at 1. rewrite queue_enqueue_run.
      destruct (decide ("call_command" ∈ q_registry q)); [| discriminate].
      unfold bind, ret. rewrite queue_fetch_job_run. unfold fetch_job, logged. simpl.
      rewrite lookup_insert_eq. intros [= <- <-]. simpl.
      rewrite lookup_insert_eq.
      split; [reflexivity |]. split; [reflexivity |]. split; [discriminate |].
      split.
      * intros _. eexists. split; [exact Hcontent |]. split; reflexivity.
      * eexists. repeat split; reflexivity.
Qed.

End DeleteFacts.

Lemma startdeletechannel_sizes_witness :
  exists resp w',
    startdeletechannel sample_channels sample_user (request_of td_delete_some)
      sample_world = (Ok resp, w') /\
    resp_data resp !! "file_size" = Some VNone /\
    resp_data resp !! "total_resources" = Some VNone.
Proof.
  destruct (startdeletechannel sample_channels sample_user
              (request_of td_delete_some) sample_world) as [[resp | e] w'] eqn:Hrun;
    [| vm_compute in Hrun; discriminate Hrun].
  destruct (startdeletechannel_sizes sample_channels sample_user
              (request_of td_delete_some) sample_world resp w' Hrun)
    as (_ & _ & Hrestricted & _).
  exists resp, w'. split; [reflexivity |]. apply Hrestricted. reflexivity.
Defined.

Section SyncFacts.
Import Queue QueueFacts.

(** A data portal sync cannot be cancelled.  Without a [facility] in the
    body [startdataportalsync] fails with [KeyError] (a server error) and
    enqueues nothing.  When it answers, the response has type
    [SYNCDATAPORTAL] and carries the facility and the requesting user, the
    job it enqueued is not cancellable, and a later request to the cancel
    endpoint for that job leaves the queue exactly as it is. *)
Theorem startdataportalsync_not_cancellable user request w :
  (data request !! "facility" = None ->
     startdataportalsync user request w = (Raise KeyError, w)) /\
  (forall resp w', startdataportalsync user request w = (Ok resp, w') ->
     exists job,
       q_jobs (w_queue w') !! fresh (q_issued (w_queue w)) = Some job /\
       job_id job = fresh (q_issued (w_queue w)) /\
       cancellable job = false /\
       resp_data resp !! "id" = Some (VStr (job_id job)) /\
       resp_data resp !! "cancellable" = Some (VBool false) /\
       resp_data resp !! "type" = Some (VStr "SYNCDATAPORTAL") /\
       resp_data resp !! "started_by" = Some (user_pk user) /\
       resp_data resp !! "facility" = data request !! "facility" /\
       (forall cancel_request,
          data cancel_request !! "task_id" = Some (VStr (job_id job)) ->
          fst (TasksViewSet.canceltask cancel_request w') = Ok (respond ∅) /\
          w_queue (snd (TasksViewSet.canceltask cancel_request w')) = w_queue w')).
Proof.
  destruct w as [q calls]. unfold startdataportalsync. split.
  - intros Hnone. unfold bind at 1. unfold getitem at 1. rewrite Hnone. reflexivity.
  - intros resp w'.
    destruct (data request !! "facility") as [facility |] eqn:Hfac.
    2: { unfold bind at 1. unfold getitem at 1. rewrite Hfac. discriminate. }
    rewrite (bind_getitem _ _ facility) by exact Hfac.
    cbv zeta. erewrite bind_getitem by reflexivity.
    unfold bind at 1. rewrite queue_enqueue_run.
    destruct (decide ("call_command" ∈ q_registry q)); [| discriminate].
    unfold bind, ret. rewrite queue_fetch_job_run. unfold fetch_job, logged. simpl.
    rewrite lookup_insert_eq. intros [= <- <-]. simpl.
    rewrite lookup_insert_eq. eexists. split; [reflexivity |].
    repeat split; try reflexivity.
    + rewrite (canceltask_string _ _ _ H). reflexivity.
    + rewrite (canceltask_string _ _ _ H). simpl.
      erewrite cancel_same; [reflexivity | apply lookup_insert_eq | reflexivity].
Qed.

End SyncFacts.

Lemma startdataportalsync_not_cancellable_witness :
  startdataportalsync sample_user (request_of ∅) sample_world =
    (Raise KeyError, sample_world) /\
  exists resp w',
    startdataportalsync sample_user (request_of td_sync) sample_world = (Ok resp, w') /\
    resp_data resp !! "id" = Some (VStr "1") /\
    w_queue (snd (TasksViewSet.canceltask (task_request (VStr "1")) w')) = w_queue w'.
Proof.
  destruct (startdataportalsync_not_cancellable sample_user (request_of ∅) sample_world)
    as (Hmissing & _).
  destruct (startdataportalsync_not_cancellable sample_user (request_of td_sync)
              sample_world) as (_ & Hok).
  split; [apply Hmissing; reflexivity |].
  destruct (startdataportalsync sample_user (request_of td_sync) sample_world)
    as [[resp | e] w'] eqn:Hrun; [| vm_compute in Hrun; discriminate Hrun].
  destruct (Hok resp w' eq_refl) as (job & _ & Hid & _ & Hrid & _ & _ & _ & _ & Hcancel).
  assert (Hname : job_id job = "1") by (rewrite Hid; vm_compute; reflexivity).
  exists resp, w'. split; [reflexivity |]. split.
  - rewrite Hrid, Hname. reflexivity.
  - apply Hcancel. rewrite Hname. reflexivity.
Defined.

(** ** The job summary, once more *)

(** The keys of a job's summary are the six written from the job plus the
    keys of its metadata, and under every other key than those six the
    summary holds exactly what the metadata holds. *)
Theorem job_to_response_keys (j : Job) :
  dom (_job_to_response (Some j)) = summary_keys ∪ dom (extra_metadata j) /\
  (forall k, k ∉ summary_keys ->
     _job_to_response (Some j) !! k = extra_metadata j !! k).
Proof.
  assert (Hdom : dom (job_output j) = summary_keys) by reflexivity.
  cbn [_job_to_response]. split.
  - rewrite dict_update_dom, Hdom. apply (comm_L (∪)).
  - intros k Hk. rewrite dict_update_lookup.
    destruct (extra_metadata j !! k) as [v |]; [reflexivity |].
    apply not_elem_of_dom. rewrite Hdom. exact Hk.
Qed.

Lemma job_to_response_keys_witness :
  _job_to_response (Some plain_job) !! "started_by" = Some (VInt 1) /\
  _job_to_response (Some plain_job) !! "progress" = None.
Proof.
  destruct (job_to_response_keys plain_job) as (_ & Hother).
  split; (rewrite Hother; [reflexivity |]); vm_compute; intros H; discriminate H.
Defined.

(** ** The disk export, when it is not cancelled during the content export *)

Section LocalExportOtherwise.
Variable callback : Type.
Variable get_mounted_drive_by_id : string -> M fsworld Drive.
Variable call_command :
  string -> list pyval -> list (string * pyval) ->
  option callback -> option callback -> M fsworld unit.
Variable get_content_database_file_path : string -> string -> string.

Local Abbreviation localexport :=
  (_localexport callback get_mounted_drive_by_id call_command
     get_content_database_file_path).

(** [_localexport] cleans up in one case only.  If the channel export
    raises, a cancellation included, or the content export raises
    anything but [UserCancelledError], the exception leaves the job body
    as it is and the drive is what the commands left: no [os.remove] is
    made; and if both commands return, so does the job body. *)
Theorem localexport_no_cleanup_otherwise
    channel_id drive_id update_progress check_for_cancel node_ids exclude_node_ids
    w drive w1 :
  get_mounted_drive_by_id drive_id w = (Ok drive, w1) ->
  let channel_step :=
    call_command "exportchannel" [VStr channel_id; VStr (datafolder drive)] []
      update_progress check_for_cancel in
  let content_step :=
    call_command "exportcontent" [VStr channel_id; VStr (datafolder drive)]
      [("node_ids", node_ids); ("exclude_node_ids", exclude_node_ids)]
      update_progress check_for_cancel in
  let run :=
    localexport channel_id drive_id update_progress check_for_cancel
      node_ids exclude_node_ids w in
  (forall e w2, channel_step w1 = (Raise e, w2) -> run = (Raise e, w2)) /\
  (forall w2 w3, channel_step w1 = (Ok tt, w2) -> content_step w2 = (Ok tt, w3) ->
     run = (Ok tt, w3)) /\
  (forall w2 e w3, channel_step w1 = (Ok tt, w2) ->
     content_step w2 = (Raise e, w3) -> e <> UserCancelledError ->
     run = (Raise e, w3)).
Proof.
  intros Hdrive channel_step content_step run.
  subst run channel_step content_step.
  unfold _localexport, bind, try_except. rewrite Hdrive.
  split; [| split].
  - intros e w2 ->. reflexivity.
  - intros w2 w3 -> ->. reflexivity.
  - intros w2 e w3 -> -> Hne.
    destruct e; try reflexivity. contradiction.
Qed.

End LocalExportOtherwise.

Lemma localexport_no_cleanup_otherwise_witness :
  let run :=
    _localexport unit sample_drive cancelled_early_command sample_db_path
      "c1" "d1" None None VNone VNone empty_fs in
  fst run = Raise UserCancelledError /\
  syscalls (snd run) = [] /\
  "/media/d1/content/databases/c1.sqlite3" ∈ files (snd run).
Proof.
  intros run.
  edestruct (localexport_no_cleanup_otherwise unit sample_drive
               cancelled_early_command sample_db_path "c1" "d1" None None
               VNone VNone empty_fs) as (Hchannel & _).
  - reflexivity.
  - subst run. erewrite Hchannel by reflexivity. simpl.
    split; [reflexivity |]. split; [reflexivity |].
    apply elem_of_union_l, elem_of_singleton. reflexivity.
Defined.

(** ** Looking up a user on a remote facility *)

Section RemoteFacilityUserFacts.
Import RemoteFacilityUserViewset.
Variable json : Type.
Variable reverse_remote : string -> string -> result string.
Variable remote : string -> gmap string string -> result (RemoteResponse json).
Variable exn_str : exn -> string.

Local Abbreviation view := (get json reverse_remote remote exn_str).

(** Without a [username] or without a [facility] parameter the view raises
    a validation error and sends no request; an empty value counts as
    given. *)
Theorem remote_user_lookup_requires_both request sent :
  (query_params request !! "username" = None \/
   query_params request !! "facility" = None) ->
  get json reverse_remote remote exn_str request sent =
    (Raise (ValidationError "Both username and facility are required"), sent).
Proof.
  intros [Hn | Hn]; unfold get; rewrite Hn; [reflexivity |].
  destruct (query_params request !! "username"); reflexivity.
Qed.

(** Once both parameters are given and the remote url resolves, the view
    sends exactly one request, to that url, with [facility] and [search]
    parameters, and whatever the remote side does ends in an answer or a
    validation error, never a server error: status 200 gives the decoded
    body, any other status the empty answer, and an exception out of the
    request or out of the decoding becomes a validation error with the
    exception's text. *)
Theorem remote_user_lookup_outcomes request sent username facility url :
  query_params request !! "username" = Some username ->
  query_params request !! "facility" = Some facility ->
  reverse_remote
    (default (absolute_root request) (query_params request !! "baseurl"))
    "kolibri:core:publicsearchuser-list" = Ok url ->
  let params := search_params facility username in
  snd (view request sent) = (sent ++ [(url, params)])%list /\
  fst (view request sent) =
    match remote url params with
    | Ok response =>
        if (remote_status_code json response =? 200)%Z then
          match remote_json json response with
          | Ok j => Ok (ReplyJson json j)
          | Raise e => Raise (ValidationError (exn_str e))
          end
        else Ok (ReplyEmpty json)
    | Raise e => Raise (ValidationError (exn_str e))
    end.
Proof.
  intros Hu Hf Hurl params. subst params. unfold get. rewrite Hu, Hf.
  replace (match query_params request !! "baseurl" with
           | Some b => b
           | None => absolute_root request
           end)
    with (default (absolute_root request) (query_params request !! "baseurl"))
    by (destruct (query_params request !! "baseurl"); reflexivity).
  rewrite Hurl. unfold try_except, bind, requests_get, of_result. simpl.
  destruct (remote url (search_params facility username)) as [response | e];
    simpl; [| split; reflexivity].
  destruct (remote_status_code json response =? 200)%Z; [| split; reflexivity].
  destruct (remote_json json response) as [j | e]; split; reflexivity.
Qed.

End RemoteFacilityUserFacts.

Lemma remote_user_lookup_requires_both_witness :
  RemoteFacilityUserViewset.get string sample_reverse_remote sample_remote
    sample_exn_str (profile_request (<["username" := "ann"]> ∅)) [] =
    (Raise (ValidationError "Both username and facility are required"), []).
Proof.
  apply remote_user_lookup_requires_both. right. reflexivity.
Defined.

Lemma remote_user_lookup_outcomes_witness :
  let view :=
    RemoteFacilityUserViewset.get string sample_reverse_remote sample_remote
      sample_exn_str in
  fst (view (profile_request (<["username" := ""]> (<["facility" := "f1"]> ∅))) []) =
    Ok (RemoteFacilityUserViewset.ReplyJson string "[{'username': 'ann'}]") /\
  fst (view (profile_request (<["username" := "ann"]> (<["facility" := "f2"]> ∅))) []) =
    Ok (RemoteFacilityUserViewset.ReplyEmpty string) /\
  fst (view (profile_request (<["username" := "ann"]> (<["facility" := "f3"]> ∅))) []) =
    Raise (ValidationError "connection refused").
Proof.
  intros view. subst view.
  split; [| split].
  - edestruct (remote_user_lookup_outcomes string sample_reverse_remote sample_remote
                 sample_exn_str
                 (profile_request (<["username" := ""]> (<["facility" := "f1"]> ∅))) [])
      as (_ & Hfst); [reflexivity | reflexivity | reflexivity |].
    rewrite Hfst. reflexivity.
  - edestruct (remote_user_lookup_outcomes string sample_reverse_remote sample_remote
                 sample_exn_str
                 (profile_request (<["username" := "ann"]> (<["facility" := "f2"]> ∅))) [])
      as (_ & Hfst); [reflexivity | reflexivity | reflexivity |].
    rewrite Hfst. reflexivity.
  - edestruct (remote_user_lookup_outcomes string sample_reverse_remote sample_remote
                 sample_exn_str
                 (profile_request (<["username" := "ann"]> (<["facility" := "f3"]> ∅))) [])
      as (_ & Hfst); [reflexivity | reflexivity | reflexivity |].
    rewrite Hfst. reflexivity.
Defined.

(** ** The fixture generator *)

Module GenerateFacts.
Import GenerateContentData.

Lemma count_app p l1 l2 : count p (l1 ++ l2) = count p l1 + count p l2.
Proof. unfold count. rewrite List.filter_app, length_app. reflexivity. Qed.

Lemma pow_shift_sum n (xs : list nat) :
  sum_list (map (Nat.pow n) (map S xs)) = n * sum_list (map (Nat.pow n) xs).
Proof.
  induction xs as [| x xs IH]; simpl.
  - rewrite Nat.mul_0_r. reflexivity.
  - rewrite IH, Nat.mul_add_distr_l. reflexivity.
Qed.

(** One more level multiplies the topics below by [n] and adds [n]. *)
Lemma geometric_step n l :
  sum_list (map (Nat.pow n) (seq 1 (S l))) =
    n * (1 + sum_list (map (Nat.pow n) (seq 1 l))).
Proof.
  cbn [seq map sum_list]. rewrite <- seq_shift, pow_shift_sum.
  rewrite Nat.pow_1_r, Nat.mul_add_distr_l, Nat.mul_1_r. reflexivity.
Qed.

Section Emits.
Context {db : Type}.
Variable Q : gen_event -> Prop.

Lemma emits_ret {A} (a : A) : emits (db := db) Q 0 0 0 (eq a) (ret a).
Proof.
  intros g. exists a, g, []. rewrite app_nil_r.
  repeat split; try reflexivity. constructor.
Qed.

Lemma emits_bind {A B} cl1 ct1 cd1 cl2 ct2 cd2 (R1 : A -> Prop) (R2 : B -> Prop)
    (m : M (gen db) A) (k : A -> M (gen db) B) :
  emits Q cl1 ct1 cd1 R1 m ->
  (forall a, R1 a -> emits Q cl2 ct2 cd2 R2 (k a)) ->
  emits Q (cl1 + cl2) (ct1 + ct2) (cd1 + cd2) R2 (bind m k).
Proof.
  intros Hm Hk g.
  destruct (Hm g) as (a & g1 & new1 & Hrun1 & Ha & Hev1 & Hl1 & Ht1 & Hd1 & HQ1).
  destruct (Hk a Ha g1) as (b & g2 & new2 & Hrun2 & Hb & Hev2 & Hl2 & Ht2 & Hd2 & HQ2).
  exists b, g2, (new1 ++ new2)%list. unfold bind. rewrite Hrun1, Hrun2.
  split; [reflexivity |]. split; [exact Hb |].
  split; [rewrite Hev2, Hev1, app_assoc; reflexivity |].
  rewrite !count_app, Hl1, Hl2, Ht1, Ht2, Hd1, Hd2.
  repeat split. apply Forall_app. split; assumption.
Qed.

Lemma emits_seq {A B} cl ct cd cl1 ct1 cd1 cl2 ct2 cd2
    (R1 : A -> Prop) (R2 : B -> Prop) (m : M (gen db) A) (k : A -> M (gen db) B) :
  emits Q cl1 ct1 cd1 R1 m ->
  (forall a, R1 a -> emits Q cl2 ct2 cd2 R2 (k a)) ->
  cl = cl1 + cl2 -> ct = ct1 + ct2 -> cd = cd1 + cd2 ->
  emits Q cl ct cd R2 (bind m k).
Proof. intros Hm Hk -> -> ->. eapply emits_bind; eassumption. Qed.

Lemma emits_counts {A} cl ct cd cl' ct' cd' (R : A -> Prop) (m : M (gen db) A) :
  emits Q cl ct cd R m -> cl = cl' -> ct = ct' -> cd = cd' ->
  emits Q cl' ct' cd' R m.
Proof. intros Hm <- <- <-. exact Hm. Qed.

Lemma emits_weaken {A} cl ct cd (R R' : A -> Prop) (m : M (gen db) A) :
  (forall a, R a -> R' a) -> emits Q cl ct cd R m -> emits Q cl ct cd R' m.
Proof.
  intros HR Hm g.
  destruct (Hm g) as (a & g1 & new & Hrun & Ha & Hrest).
  exists a, g1, new. split; [exact Hrun |]. split; [apply HR, Ha | exact Hrest].
Qed.

Lemma emits_traced {A} (e : gen_event) (m : M db A) :
  (forall d, exists a d', m d = (Ok a, d')) ->
  Q e ->
  emits Q (count is_leaf [e]) (count is_topic [e]) (count is_draw [e])
    (fun _ => True) (traced db e m).
Proof.
  intros Hm He g. destruct (Hm (g_db db g)) as (a & d' & Hrun).
  exists a, {| g_db := d'; g_events := (g_events db g ++ [e])%list |}, [e].
  unfold traced. rewrite Hrun.
  repeat split; try reflexivity. constructor; [exact He | constructor].
Qed.

Lemma emits_mapM {A B} cl ct cd (body : A -> M (gen db) B) (l : list A) :
  (forall x, emits Q cl ct cd (fun _ => True) (body x)) ->
  emits Q (length l * cl) (length l * ct) (length l * cd)
    (fun ys => length ys = length l) (mapM body l).
Proof.
  intros Hbody. induction l as [| x rest IH]; cbn [mapM length Nat.mul].
  - eapply emits_weaken; [| apply emits_ret]. intros ys <-. reflexivity.
  - eapply emits_bind; [apply Hbody |]. intros y _.
    rewrite <- (Nat.add_0_r (length rest * cl)),
      <- (Nat.add_0_r (length rest * ct)), <- (Nat.add_0_r (length rest * cd)).
    eapply emits_bind; [exact IH |]. intros ys Hys.
    eapply emits_weaken; [| apply emits_ret]. intros zs <-.
    simpl. rewrite Hys. reflexivity.
Qed.

End Emits.

Section ChoicesFacts.
Variable rng : Type.
Variable A : Type.
Variable random_choice : list A -> M rng A.

Lemma mapM_draws (P : A -> Prop) (m : M rng A) {B} (l : list B) :
  (forall s, exists x s', m s = (Ok x, s') /\ P x) ->
  forall s, exists ys s',
    mapM (fun _ => m) l s = (Ok ys, s') /\ length ys = length l /\ Forall P ys.
Proof.
  intros Hm. induction l as [| b rest IH]; intros s; cbn [mapM].
  - exists [], s. repeat split. constructor.
  - destruct (Hm s) as (x & s1 & Hx & HP).
    destruct (IH s1) as (ys & s2 & Hys & Hlen & Hall).
    exists (x :: ys), s2. unfold bind. rewrite Hx, Hys.
    split; [reflexivity |]. split; [simpl; rewrite Hlen; reflexivity |].
    constructor; assumption.
Qed.

(** [choices(sequence, k)]: for [k] of zero or less the result is empty
    and the random generator is not consulted; if every draw returns a
    member of the sequence, the result has exactly [k] elements, all from
    the sequence; and for positive [k] a failing first draw (an empty
    sequence, say) fails the whole call. *)
Theorem choices_length_and_members (sequence : list A) (k : Z) :
  ((k <= 0)%Z -> forall s, choices rng A random_choice sequence k s = (Ok [], s)) /\
  ((forall s, exists x s', random_choice sequence s = (Ok x, s') /\ x ∈ sequence) ->
   forall s, exists l s',
     choices rng A random_choice sequence k s = (Ok l, s') /\
     length l = Z.to_nat k /\
     forall x, x ∈ l -> x ∈ sequence) /\
  ((0 < k)%Z -> forall s e s',
     random_choice sequence s = (Raise e, s') ->
     choices rng A random_choice sequence k s = (Raise e, s')).
Proof.
  unfold choices, for_range. split; [| split].
  - intros Hk s. replace (Z.to_nat k) with 0 by lia. reflexivity.
  - intros Hdraw s.
    destruct (mapM_draws (fun x => x ∈ sequence) (random_choice sequence)
                (seq 0 (Z.to_nat k)) Hdraw s) as (ys & s' & Hrun & Hlen & Hall).
    exists ys, s'. split; [exact Hrun |].
    split; [rewrite Hlen; apply length_seq |].
    intros x Hx. rewrite Forall_forall in Hall. apply Hall. exact Hx.
  - intros Hk s e s' Hfail.
    destruct (Z.to_nat k) as [| n] eqn:Hn; [lia |].
    cbn [seq mapM]. unfold bind. rewrite Hfail. reflexivity.
Qed.

End ChoicesFacts.

Section TreeFacts.
Variable db : Type.
Variable node : Type.
Variable ALL_RESOURCES_KINDS : list string.
Variable random_choice : list string -> M db string.
Variable generate_leaf_db : node -> string -> string -> M db node.
Variable generate_topic_db : node -> string -> string -> M db node.
Variable children_add_db : node -> list node -> M db unit.

(** The collaborators answer whenever they are called. *)
Hypothesis draw_returns :
  forall d, exists k d', random_choice ALL_RESOURCES_KINDS d = (Ok k, d').
Hypothesis leaf_returns :
  forall p k c d, exists n d', generate_leaf_db p k c d = (Ok n, d').
Hypothesis topic_returns :
  forall p t c d, exists n d', generate_topic_db p t c d = (Ok n, d').
Hypothesis add_returns :
  forall n ns d, exists u d', children_add_db n ns d = (Ok u, d').

Local Abbreviation rec :=
  (recurse_and_generate db node ALL_RESOURCES_KINDS random_choice
     generate_leaf_db generate_topic_db children_add_db).

Lemma leaf_round channel_id parent n_children resources_kind :
  emits (regular_event n_children resources_kind) 1 0
    (draws_per_leaf resources_kind) (fun _ => True)
    (kind <- resource_kind_or_random db ALL_RESOURCES_KINDS random_choice
               resources_kind ;;
     generate_leaf db node generate_leaf_db parent kind channel_id).
Proof.
  unfold draws_per_leaf, resource_kind_or_random, generate_leaf.
  destruct resources_kind as [kind |]; simpl;
    [destruct (String.eqb kind "") eqn:Hk |].
  - apply (emits_seq _ _ _ _ 0 0 1 1 0 0 (fun _ => True)); try reflexivity.
    + apply (emits_traced _ KindDrawn); [apply draw_returns |].
      simpl. rewrite Hk. reflexivity.
    + intros k _. apply (emits_traced _ (LeafGenerated k)); [apply leaf_returns |].
      simpl. rewrite Hk. exact I.
  - apply (emits_seq _ _ _ _ 0 0 0 1 0 0 (eq kind)); try reflexivity.
    + apply emits_ret.
    + intros k <-. apply (emits_traced _ (LeafGenerated kind)); [apply leaf_returns |].
      simpl. rewrite Hk. reflexivity.
  - apply (emits_seq _ _ _ _ 0 0 1 1 0 0 (fun _ => True)); try reflexivity.
    + apply (emits_traced _ KindDrawn); [apply draw_returns | reflexivity].
    + intros k _. apply (emits_traced _ (LeafGenerated k)); [apply leaf_returns |].
      exact I.
Qed.

Lemma tree_emits channel_id parent levels n_children resources_kind :
  emits (regular_event n_children resources_kind)
    (n_children ^ S levels)
    (sum_list (map (Nat.pow n_children) (seq 1 levels)))
    (n_children ^ S levels * draws_per_leaf resources_kind)
    (fun nodes => length nodes = n_children)
    (rec channel_id parent levels n_children resources_kind).
Proof.
  induction levels as [| lower IH].
  - cbn [recurse_and_generate]. unfold for_range.
    apply (emits_weaken _ _ _ _
             (fun ys : list node => length ys = length (seq 0 n_children)));
      [intros ys ->; apply length_seq |].
    eapply emits_counts.
    + apply emits_mapM. intros i. apply leaf_round.
    + rewrite length_seq, Nat.pow_1_r. apply Nat.mul_1_r.
    + rewrite length_seq. apply Nat.mul_0_r.
    + rewrite length_seq, Nat.pow_1_r. reflexivity.
  - cbn [recurse_and_generate]. unfold for_range.
    apply (emits_weaken _ _ _ _
             (fun ys : list node => length ys = length (seq 0 n_children)));
      [intros ys ->; apply length_seq |].
    eapply emits_counts.
    + apply emits_mapM. intros i.
      apply (emits_seq _ _ _ _ 0 1 0
               (n_children ^ S lower)
               (sum_list (map (Nat.pow n_children) (seq 1 lower)))
               (n_children ^ S lower * draws_per_leaf resources_kind)
               (fun _ => True) (fun _ => True)); try reflexivity.
      * apply (emits_traced _ (TopicGenerated _)); [apply topic_returns | exact I].
      * intros n _.
        apply (emits_seq _ _ _ _
                 (n_children ^ S lower)
                 (sum_list (map (Nat.pow n_children) (seq 1 lower)))
                 (n_children ^ S lower * draws_per_leaf resources_kind)
                 0 0 0 (fun nodes => length nodes = n_children) (fun _ => True));
          [exact IH | | lia | lia | lia].
        intros children Hlen.
        apply (emits_seq _ _ _ _ 0 0 0 0 0 0 (fun _ => True) (fun _ => True));
          try reflexivity.
        -- apply (emits_traced _ (ChildrenAdded _)); [apply add_returns | exact Hlen].
        -- intros _ _. eapply emits_weaken; [| apply emits_ret]. intros; exact I.
    + rewrite length_seq. symmetry. apply Nat.pow_succ_r'.
    + rewrite length_seq. symmetry. apply geometric_step.
    + rewrite length_seq, (Nat.pow_succ_r' n_children (S lower)).
      simpl. lia.
Qed.

(** The tree [recurse_and_generate] builds.  Provided the database and the
    random generator answer, it returns [n_children] nodes, having created
    [n_children ^ (levels + 1)] leaves and, level by level,
    [n_children + n_children^2 + ... + n_children^levels] topics, each
    topic being given its [n_children] children in one call. *)
Theorem recurse_and_generate_tree_size
    channel_id parent levels n_children resources_kind g :
  exists nodes g' new,
    rec channel_id parent levels n_children resources_kind g = (Ok nodes, g') /\
    length nodes = n_children /\
    g_events db g' = (g_events db g ++ new)%list /\
    count is_leaf new = n_children ^ (levels + 1) /\
    count is_topic new = sum_list (map (Nat.pow n_children) (seq 1 levels)) /\
    Forall (fun e => forall c, e = ChildrenAdded c -> c = n_children) new.
Proof.
  destruct (tree_emits channel_id parent levels n_children resources_kind g)
    as (nodes & g' & new & Hrun & Hlen & Hev & Hl & Ht & _ & HQ).
  exists nodes, g', new. rewrite Nat.add_1_r.
  repeat split; try assumption.
  eapply Forall_impl; [exact HQ |].
  intros e He c ->. exact He.
Qed.

(** The kinds of the leaves.  With a non-empty [resources_kind] every
    leaf is created with that kind and nothing is drawn at random; with
    none (or the empty string) one kind is drawn for every leaf. *)
Theorem recurse_and_generate_leaf_kinds
    channel_id parent levels n_children resources_kind g :
  exists nodes g' new,
    rec channel_id parent levels n_children resources_kind g = (Ok nodes, g') /\
    g_events db g' = (g_events db g ++ new)%list /\
    (forall kind, resources_kind = Some kind -> kind <> "" ->
       count is_draw new = 0 /\
       Forall (fun e => forall k, e = LeafGenerated k -> k = kind) new) /\
    (resources_kind = None \/ resources_kind = Some "" ->
       count is_draw new = count is_leaf new).
Proof.
  destruct (tree_emits channel_id parent levels n_children resources_kind g)
    as (nodes & g' & new & Hrun & _ & Hev & Hl & _ & Hd & HQ).
  exists nodes, g', new. split; [exact Hrun |]. split; [exact Hev |]. split.
  - intros kind -> Hne.
    assert (Hfix : fixed_kind (Some kind) = Some kind).
    { simpl. destruct (String.eqb_spec kind ""); [contradiction | reflexivity]. }
    split.
    + rewrite Hd. unfold draws_per_leaf. rewrite Hfix. apply Nat.mul_0_r.
    + eapply Forall_impl; [exact HQ |].
      intros e He k ->. unfold regular_event in He. rewrite Hfix in He. exact He.
  - intros Hnone. rewrite Hd, Hl.
    assert (Hfix : fixed_kind resources_kind = None)
      by (destruct Hnone as [-> | ->]; reflexivity).
    unfold draws_per_leaf. rewrite Hfix. apply Nat.mul_1_r.
Qed.

End TreeFacts.

Lemma choices_length_and_members_witness :
  choices nat string first_choice sample_kinds 0 5 = (Ok [], 5) /\
  (exists l s',
     choices nat string first_choice sample_kinds 3 5 = (Ok l, s') /\
     length l = 3) /\
  choices nat string first_choice [] 3 5 = (Raise KeyError, 5).
Proof.
  destruct (choices_length_and_members nat string first_choice sample_kinds 0)
    as (Hzero & _).
  destruct (choices_length_and_members nat string first_choice sample_kinds 3)
    as (_ & Hthree & _).
  destruct (choices_length_and_members nat string first_choice [] 3)
    as (_ & _ & Hempty).
  split; [apply Hzero; lia |]. split.
  - destruct (Hthree (fun s => ex_intro _ "video" (ex_intro _ s
                 (conj eq_refl (list_elem_of_here "video" _)))) 5)
      as (l & s' & Hrun & Hlen & _).
    exists l, s'. split; [exact Hrun | exact Hlen].
  - apply Hempty; [lia | reflexivity].
Defined.

Lemma counter_returns (p : nat) (k c : string) (d : nat) :
  exists n d', counter_create p k c d = (Ok n, d').
Proof. eexists _, _. reflexivity. Qed.

Lemma recurse_and_generate_tree_size_witness :
  exists nodes g' new,
    recurse_and_generate nat nat sample_kinds first_choice counter_create
      counter_create counter_add "ch" 0 2 3 None fresh_gen = (Ok nodes, g') /\
    length nodes = 3 /\
    g_events nat g' = new /\
    count is_leaf new = 27 /\
    count is_topic new = 12.
Proof.
  destruct (recurse_and_generate_tree_size nat nat sample_kinds first_choice
              counter_create counter_create counter_add
              (fun d => ex_intro _ "video" (ex_intro _ d eq_refl))
              counter_returns counter_returns
              (fun n ns d => ex_intro _ tt (ex_intro _ d eq_refl))
              "ch" 0 2 3 None fresh_gen)
    as (nodes & g' & new & Hrun & Hlen & Hev & Hl & Ht & _).
  exists nodes, g', new. repeat split; assumption.
Defined.

Lemma recurse_and_generate_leaf_kinds_witness :
  exists nodes g' new,
    recurse_and_generate nat nat sample_kinds first_choice counter_create
      counter_create counter_add "ch" 0 1 2 (Some "audio") fresh_gen =
      (Ok nodes, g') /\
    g_events nat g' = new /\
    count is_draw new = 0 /\
    Forall (fun e => forall k, e = LeafGenerated k -> k = "audio") new.
Proof.
  destruct (recurse_and_generate_leaf_kinds nat nat sample_kinds first_choice
              counter_create counter_create counter_add
              (fun d => ex_intro _ "video" (ex_intro _ d eq_refl))
              counter_returns counter_returns
              (fun n ns d => ex_intro _ tt (ex_intro _ d eq_refl))
              "ch" 0 1 2 (Some "audio") fresh_gen)
    as (nodes & g' & new & Hrun & Hev & Hfixed & _).
  destruct (Hfixed "audio" eq_refl) as (Hdraws & Hkinds); [discriminate |].
  exists nodes, g', new. repeat split; assumption.
Defined.

End GenerateFacts.
